(** * Polyglot TTS client: the job lifecycle of [main.py]

    A shallow embedding of the three functions that carry the control flow
    of the client, [submit_job], [poll_for_completion] and
    [download_result], and of the form handler that calls them, followed
    by the properties of the specification that concern them and by
    further properties of the code.

    The functions talk to a clock, to an HTTP server, to the disk and to a
    Streamlit placeholder.  Those are modelled by an environment of
    oracles ([env]) that is read through counters kept in a [world],
    together with the trace of the actions the program performed. *)

From Stdlib Require Import ZArith String List Lia PrimFloat.
From Stdlib Require Uint63.
From stdpp Require Import gmap strings.
Import ListNotations.

#[local] Set Warnings "-register-all".
#[local] Open Scope string_scope.
#[local] Open Scope Z_scope.

(** ** Python values *)

Module Py.

(** The values [response.json()] can produce.  A JSON object becomes a
    [dict] with string keys, hence a finite map. *)
Inductive pyval :=
| PNone
| PBool (b : bool)
| PInt (z : Z)
| PFloat (f : float)
| PStr (s : string)
| PList (l : list pyval)
| PDict (d : gmap string pyval).

(** [bool(v)]: [None], [False], zero, and empty strings and containers
    are false. *)
Definition truthy (v : pyval) : bool :=
  match v with
  | PNone => false
  | PBool b => b
  | PInt z => negb (z =? 0)
  | PFloat f => negb (PrimFloat.eqb f 0%float)
  | PStr s => match s with EmptyString => false | String _ _ => true end
  | PList l => match l with [] => false | _ :: _ => true end
  | PDict d => negb (bool_decide (d = ∅))
  end.

(** [a and b] evaluates to [a] when [a] is false and to [b] otherwise. *)
Definition py_and (a b : pyval) : pyval := if truthy a then b else a.

(** [v == "literal"] for a string literal: only a [str] with the same
    characters compares equal. *)
Definition eq_str (v : pyval) (lit : string) : bool :=
  match v with
  | PStr s => String.eqb s lit
  | _ => false
  end.

(** [d.get(key)]: the value bound to [key], or [None]. *)
Definition dict_get (d : gmap string pyval) (key : string) : pyval :=
  match d !! key with
  | Some v => v
  | None => PNone
  end.

(** [needle in hay] on [str]: [needle] occurs as a contiguous run of
    characters somewhere in [hay]. *)
Fixpoint str_in (needle hay : string) : bool :=
  if String.prefix needle hay then true
  else match hay with
       | EmptyString => false
       | String _ rest => str_in needle rest
       end.

End Py.
Import Py.

(** ** Configuration (lines 9 and 12) *)

Definition BASE_URL : string := "https://3a0ae9535730.ngrok-free.app".

Definition MAX_WAIT_SECONDS : Z := 5400.

(** ** The interval policy (lines 50 to 62 of [poll_for_completion]) *)

Definition dynamic_poll_interval (language : string) (text_length : Z) : Z :=
  let dynamic_poll_interval := 15 in
  let dynamic_poll_interval :=
    if str_in "English" language then
      if text_length <? 500 then 10 else 30
    else
      if text_length <? 100 then 20
      else if text_length <? 500 then 30
      else 45 in
  dynamic_poll_interval.

(** ** The [requests] library

    What the client relies on: a request either raises a
    [RequestException] or yields a response; [raise_for_status] raises
    [HTTPError] for the status codes 400 to 599 and for no other;
    [json()] raises [JSONDecodeError], itself a [RequestException], when
    the body is not JSON; iterating over a streamed body yields its
    pieces and may fail after any of them. *)

Module Requests.

Inductive request_error :=
| ConnectionError (detail : string)
| HTTPError (status_code : Z)
| JSONDecodeError
| ChunkedEncodingError (detail : string).

Record Response := {
  status_code : Z;
  (** the value [json()] returns, [None] when the body is not JSON *)
  json_body : option pyval;
  (** the pieces [iter_content] yields, in order *)
  chunks : list (list Byte.byte);
  (** the failure [iter_content] ends with, if any *)
  stream_error : option string
}.

Inductive Request :=
| GET (url : string) (stream : bool)
| POST (url : string) (files : list (string * string))
       (headers : list (string * string)).

End Requests.
Import Requests.

(** ** Exceptions and progress messages

    Every [raise Exception(f"...")] of the source is a constructor of
    [message] whose arguments are the values the f-string interpolates. *)

Inductive message :=
| Missing_fields
    (* "API response did not contain 'job_id' or 'status_url'." *)
| Error_submitting (e : request_error)
    (* "Error submitting job: {e}" *)
| Timed_out (job_id : string) (seconds : Z)
    (* "Job {job_id} timed out after {MAX_WAIT_SECONDS} seconds." *)
| Unknown_status (current_status : pyval) (data : pyval)
    (* "Error: Unknown status '{current_status}'. Full response: {data}" *)
| File_is_empty
    (* "Downloaded file is empty. The job may have failed silently ..." *)
| Error_downloading (e : request_error)
    (* "Error downloading file: {e}" *)
| Error_writing (e : string).
    (* "Error writing file to disk: {e}" *)

Inductive exn :=
| RequestException (e : request_error)
| OSError (detail : string)
| ValueError (detail : string)
| AttributeError (detail : string)
| Exception (m : message).

(** What [status_placeholder] is asked to show. *)
Inductive level := Info | Success | Warning.

Inductive status_text :=
| Using_interval (interval : Z)
    (* "Using a polling interval of {dynamic_poll_interval} seconds." *)
| Job_complete (elapsed_time : float)
    (* "Job complete! (Total time: {elapsed_time:.1f}s)" *)
| Still_processing (elapsed_time : float) (interval : Z)
    (* "Status: 'processing'... Total time: ...s (checking every ...s)" *)
| Error_checking (e : request_error) (interval : Z) (elapsed_time : float).
    (* "Error checking status: {e}. Retrying in ...s... (Total time: ...s)" *)

(** ** The world the client runs in *)

Inductive action :=
| Http (r : Request)
| Sleep (seconds : Z)
| Placeholder (l : level) (t : status_text).

(** The environment answers the [n]-th reading of the clock, the [n]-th
    HTTP request and the [n]-th operation on the disk. *)
Record env := {
  clock : nat -> float;
  server : nat -> Request -> request_error + Response;
  disk_fault : nat -> option string
}.

Record world := {
  clock_reads : nat;
  requests_sent : nat;
  disk_ops : nat;
  trace : list action;
  files : gmap string (list Byte.byte)
}.

Definition tick_clock (w : world) : world :=
  {| clock_reads := S (clock_reads w); requests_sent := requests_sent w;
     disk_ops := disk_ops w; trace := trace w; files := files w |}.

Definition sent (r : Request) (w : world) : world :=
  {| clock_reads := clock_reads w; requests_sent := S (requests_sent w);
     disk_ops := disk_ops w; trace := trace w ++ [Http r]; files := files w |}.

Definition logged (a : action) (w : world) : world :=
  {| clock_reads := clock_reads w; requests_sent := requests_sent w;
     disk_ops := disk_ops w; trace := trace w ++ [a]; files := files w |}.

Definition tick_disk (w : world) : world :=
  {| clock_reads := clock_reads w; requests_sent := requests_sent w;
     disk_ops := S (disk_ops w); trace := trace w; files := files w |}.

Definition stored (path : string) (content : list Byte.byte) (w : world) : world :=
  {| clock_reads := clock_reads w; requests_sent := requests_sent w;
     disk_ops := disk_ops w; trace := trace w;
     files := <[path := content]> (files w) |}.

(** ** A monad for state and exceptions *)

Inductive outcome (A : Type) :=
| Returned (a : A)
| Raised (e : exn)
| Fuel_exhausted.
Arguments Returned {A} a.
Arguments Raised {A} e.
Arguments Fuel_exhausted {A}.

Definition M (A : Type) : Type := world -> outcome A * world.

Definition ret {A} (a : A) : M A := fun w => (Returned a, w).

Definition raise {A} (e : exn) : M A := fun w => (Raised e, w).

Definition bind {A B} (c : M A) (k : A -> M B) : M B :=
  fun w =>
    match c w with
    | (Returned a, w') => k a w'
    | (Raised e, w') => (Raised e, w')
    | (Fuel_exhausted, w') => (Fuel_exhausted, w')
    end.

Declare Scope py_scope.
Delimit Scope py_scope with py.
Notation "x <- c ;; k" := (bind c (fun x => k))
  (at level 100, c at next level, right associativity) : py_scope.
Notation "c ;; k" := (bind c (fun _ => k))
  (at level 100, right associativity) : py_scope.
#[local] Open Scope py_scope.

(** [try: body except ...: handler]: the handler is chosen by the class
    of the exception; an exception no clause names goes on. *)
Definition try_except {A} (body : M A) (handler : exn -> option (M A)) : M A :=
  fun w =>
    match body w with
    | (Raised e, w') =>
        match handler e with
        | Some h => h w'
        | None => (Raised e, w')
        end
    | r => r
    end.

(** The body of a [with] block, once the resource is acquired:
    [cleanup] runs however [body] ends, and an exception of [cleanup]
    replaces the one of [body]. *)
Definition finally {A} (body : M A) (cleanup : M unit) : M A :=
  fun w =>
    match body w with
    | (Fuel_exhausted, w') => (Fuel_exhausted, w')
    | (r, w') =>
        match cleanup w' with
        | (Returned _, w'') => (r, w'')
        | (Raised e, w'') => (Raised e, w'')
        | (Fuel_exhausted, w'') => (Fuel_exhausted, w'')
        end
    end.

Inductive loop_ctl := Break | Continue.

(** A path that holds the NUL character names no file: [open] and
    [os.stat] raise [ValueError] for it before they reach the disk. *)
Fixpoint has_nul (path : string) : bool :=
  match path with
  | EmptyString => false
  | String c rest => Ascii.eqb c Ascii.zero || has_nul rest
  end.

(** ** The client *)

Section Client.

Variable E : env.

(** *** Primitive operations *)

(** [time.time()] *)
Definition time_time : M float :=
  fun w => (Returned (clock E (clock_reads w)), tick_clock w).

(** [time.sleep(seconds)] *)
Definition time_sleep (seconds : Z) : M unit :=
  fun w => (Returned tt, logged (Sleep seconds) w).

(** [status_placeholder.info], [.success] and [.warning] *)
Definition status_placeholder (l : level) (t : status_text) : M unit :=
  fun w => (Returned tt, logged (Placeholder l t) w).

(** [requests.get] and [requests.post] *)
Definition request (r : Request) : M Response :=
  fun w =>
    match server E (requests_sent w) r with
    | inl e => (Raised (RequestException e), sent r w)
    | inr response => (Returned response, sent r w)
    end.

Definition requests_get (url : string) (stream : bool) : M Response :=
  request (GET url stream).

Definition requests_post (url : string) (files headers : list (string * string))
  : M Response :=
  request (POST url files headers).

(** [response.raise_for_status()] *)
Definition raise_for_status (response : Response) : M unit :=
  if (400 <=? status_code response) && (status_code response <? 600)
  then raise (RequestException (HTTPError (status_code response)))
  else ret tt.

(** [response.json()] *)
Definition json (response : Response) : M pyval :=
  match json_body response with
  | Some v => ret v
  | None => raise (RequestException JSONDecodeError)
  end.

(** [data.get(key)]: only a [dict] has the method. *)
Definition get (data : pyval) (key : string) : M pyval :=
  match data with
  | PDict d => ret (dict_get d key)
  | _ => raise (AttributeError "get")
  end.

(** An operation on the disk raises [OSError] when the environment
    says so, and runs otherwise. *)
Definition disk_op {A} (run : M A) : M A :=
  fun w =>
    match disk_fault E (disk_ops w) with
    | Some detail => (Raised (OSError detail), tick_disk w)
    | None => run (tick_disk w)
    end.

(** [open(path, 'wb')] creates the file or empties it. *)
Definition open_wb (path : string) : M unit :=
  if has_nul path then raise (ValueError "embedded null byte")
  else disk_op (fun w => (Returned tt, stored path [] w)).

(** [f.write(chunk)] *)
Definition write (path : string) (chunk : list Byte.byte) : M unit :=
  disk_op (fun w =>
    (Returned tt, stored path (default [] (files w !! path) ++ chunk) w)).

(** closing the file when the [with] block is left *)
Definition close : M unit := disk_op (ret tt).

(** [os.path.getsize(path)] *)
Definition getsize (path : string) : M Z :=
  if has_nul path then raise (ValueError "embedded null byte")
  else disk_op (fun w =>
    match files w !! path with
    | Some content => (Returned (Z.of_nat (List.length content)), w)
    | None => (Raised (OSError "No such file or directory"), w)
    end).

(** *** [submit_job] (lines 15 to 41) *)

Definition submit_job (gender text : string) : M (pyval * pyval) :=
  let submit_url := BASE_URL +:+ "/polyglot-tts/submit" in
  let form_data := [("gender", gender); ("text", text)] in
  try_except
    (response <- requests_post submit_url form_data [("accept", "audio/wav")] ;;
     raise_for_status response ;;
     job_data <- json response ;;
     job_id <- get job_data "job_id" ;;
     status_url <- get job_data "status_url" ;;
     if negb (truthy (py_and job_id status_url))
     then raise (Exception Missing_fields)
     else ret (job_id, status_url))
    (fun e =>
       match e with
       | RequestException e => Some (raise (Exception (Error_submitting e)))
       | _ => None
       end).

(** *** [poll_for_completion] (lines 43 to 95) *)

(** [elapsed_time > MAX_WAIT_SECONDS]: a [float] against an [int] that
    is a [float] exactly; the comparison is false when [elapsed_time] is
    not a number. *)
Definition timed_out (elapsed_time : float) : bool :=
  PrimFloat.ltb (PrimFloat.of_uint63 (Uint63.of_Z MAX_WAIT_SECONDS)) elapsed_time.

(** One turn of [while True] (lines 70 to 95). *)
Definition poll_iteration (job_id status_check_url : string)
    (dynamic_poll_interval : Z) (start_time : float) : M loop_ctl :=
  now <- time_time ;;
  let elapsed_time := PrimFloat.sub now start_time in
  if timed_out elapsed_time
  then raise (Exception (Timed_out job_id MAX_WAIT_SECONDS))
  else
    try_except
      (response <- requests_get status_check_url false ;;
       raise_for_status response ;;
       data <- json response ;;
       current_status <- get data "status" ;;
       if eq_str current_status "complete" then
         status_placeholder Success (Job_complete elapsed_time) ;;
         ret Break
       else if eq_str current_status "processing" then
         status_placeholder Info
           (Still_processing elapsed_time dynamic_poll_interval) ;;
         time_sleep dynamic_poll_interval ;;
         ret Continue
       else raise (Exception (Unknown_status current_status data)))
      (fun e =>
         match e with
         | RequestException e =>
             Some (status_placeholder Warning
                     (Error_checking e dynamic_poll_interval elapsed_time) ;;
                   time_sleep dynamic_poll_interval ;;
                   ret Continue)
         | _ => None
         end).

(** The loop itself; [fuel] bounds the number of turns. *)
Fixpoint poll_loop (fuel : nat) (job_id status_check_url : string)
    (dynamic_poll_interval : Z) (start_time : float) : M unit :=
  match fuel with
  | O => fun w => (Fuel_exhausted, w)
  | S fuel' =>
      ctl <- poll_iteration job_id status_check_url
               dynamic_poll_interval start_time ;;
      match ctl with
      | Break => ret tt
      | Continue =>
          poll_loop fuel' job_id status_check_url
            dynamic_poll_interval start_time
      end
  end.

Definition poll_for_completion (fuel : nat) (job_id status_url : string)
    (language : string) (text_length : Z) : M unit :=
  let interval := dynamic_poll_interval language text_length in
  status_placeholder Info (Using_interval interval) ;;
  start_time <- time_time ;;
  let status_check_url := BASE_URL +:+ status_url in
  poll_loop fuel job_id status_check_url interval start_time.

(** *** [download_result] (lines 97 to 122) *)

(** [for chunk in r.iter_content(chunk_size=8192): f.write(chunk)] *)
Fixpoint write_chunks (path : string) (pieces : list (list Byte.byte))
    (stream_end : option string) : M unit :=
  match pieces with
  | [] =>
      match stream_end with
      | Some detail => raise (RequestException (ChunkedEncodingError detail))
      | None => ret tt
      end
  | chunk :: rest =>
      write path chunk ;;
      write_chunks path rest stream_end
  end.

Definition download_result (job_id : string) : M string :=
  let result_url := BASE_URL +:+ "/polyglot-tts/result/" +:+ job_id in
  let output_filename := job_id +:+ ".wav" in
  try_except
    (r <- requests_get result_url true ;;
     raise_for_status r ;;
     open_wb output_filename ;;
     finally
       (write_chunks output_filename (chunks r) (stream_error r))
       close ;;
     size <- getsize output_filename ;;
     if size =? 0
     then raise (Exception File_is_empty)
     else ret output_filename)
    (fun e =>
       match e with
       | RequestException e => Some (raise (Exception (Error_downloading e)))
       | OSError detail => Some (raise (Exception (Error_writing detail)))
       | _ => None
       end).

End Client.

(** ** The form handler (lines 145 to 178)

    The code that runs when the form is submitted calls the three
    functions in turn and shows the result on the page.  The calls to
    Streamlit are recorded in the order they are made; they are taken not
    to raise.  What [status_placeholder] shows while polling stays in the
    trace of the world; its [error] call, which only the handler makes,
    is recorded with the page. *)

Inductive st_call :=
| St_error (body : string)
| St_empty
| St_spinner (text : string)
| St_spinner_exit
| St_success (job_id : string)
    (* "Job submitted successfully! Job ID: {job_id}" *)
| St_balloons
| St_subheader (body : string)
| St_audio (data : string) (format : string)
| St_download_button (label : string) (data : string) (file_name : string)
    (mime : string)
| St_placeholder_error (e : exn).
    (* status_placeholder.error(f"An error occurred: {e}") *)

Record session := {
  core : world;
  page : list st_call
}.

Definition P (A : Type) : Type := session -> outcome A * session.

Definition pret {A} (a : A) : P A := fun s => (Returned a, s).

Definition pbind {A B} (c : P A) (k : A -> P B) : P B :=
  fun s =>
    match c s with
    | (Returned a, s') => k a s'
    | (Raised e, s') => (Raised e, s')
    | (Fuel_exhausted, s') => (Fuel_exhausted, s')
    end.

Declare Scope page_scope.
Delimit Scope page_scope with page.
Notation "x <-- c ;;; k" := (pbind c (fun x => k))
  (at level 100, c at next level, right associativity) : page_scope.
Notation "c ;;; k" := (pbind c (fun _ => k))
  (at level 100, right associativity) : page_scope.
#[local] Open Scope page_scope.

(** A computation on the world, run in the session. *)
Definition lift {A} (c : M A) : P A :=
  fun s =>
    let (o, w') := c (core s) in
    (o, {| core := w'; page := page s |}).

(** A call to Streamlit. *)
Definition show (c : st_call) : P unit :=
  fun s => (Returned tt, {| core := core s; page := page s ++ [c] |}).

(** [with st.spinner(text): body]: the spinner is taken away however
    [body] ends. *)
Definition spinner {A} (text : string) (body : P A) : P A :=
  fun s =>
    let (o, s') := (show (St_spinner text) ;;; body) s in
    (o, snd (show St_spinner_exit s')).

(** [try: body except Exception as e: handler]: every exception of the
    model is an [Exception]. *)
Definition try_except_Exception {A} (body : P A) (handler : exn -> P A) : P A :=
  fun s =>
    match body s with
    | (Raised e, s') => handler e s'
    | r => r
    end.

(** The body of [with open(...) as f], once the file is open. *)
Definition pfinally {A} (body : P A) (cleanup : P unit) : P A :=
  fun s =>
    match body s with
    | (Fuel_exhausted, s') => (Fuel_exhausted, s')
    | (r, s') =>
        match cleanup s' with
        | (Returned _, s'') => (r, s'')
        | (Raised e, s'') => (Raised e, s'')
        | (Fuel_exhausted, s'') => (Fuel_exhausted, s'')
        end
    end.

(** [os.path.basename] on POSIX: what follows the last slash. *)
Fixpoint basename (p : string) : string :=
  match p with
  | EmptyString => EmptyString
  | String c rest =>
      if str_in "/" rest then basename rest
      else if Ascii.eqb c (Ascii.ascii_of_nat 47) then rest
      else p
  end.

Section Form.

Variable E : env.

(** [str(v)], which an f-string applies to the value it interpolates. *)
Variable py_str : pyval -> string.

(** [open(path, "rb")] *)
Definition open_rb (path : string) : M unit :=
  if has_nul path then raise (ValueError "embedded null byte")
  else disk_op E (fun w =>
    match files w !! path with
    | Some _ => (Returned tt, w)
    | None => (Raised (OSError "No such file or directory"), w)
    end).

(** [not text_input] *)
Definition is_empty (s : string) : bool :=
  match s with
  | EmptyString => true
  | String _ _ => false
  end.

Definition form_handler (fuel : nat) (submitted : bool)
    (gender language text_input : string) : P unit :=
  if submitted then
    if is_empty text_input then
      show (St_error "Please enter some text to synthesize.")
    else
      show St_empty ;;;
      try_except_Exception
        (handle <-- spinner "Submitting job to API..."
                      (lift (submit_job E gender text_input)) ;;;
         let '(job_id, status_url) := handle in
         show (St_success (py_str job_id)) ;;;
         let text_length := Z.of_nat (String.length text_input) in
         lift (poll_for_completion E fuel (py_str job_id) (py_str status_url)
                 language text_length) ;;;
         audio_file_path <-- spinner "Downloading audio file..."
                               (lift (download_result E (py_str job_id))) ;;;
         show St_balloons ;;;
         show (St_subheader "Listen to your audio:") ;;;
         show (St_audio audio_file_path "audio/wav") ;;;
         lift (open_rb audio_file_path) ;;;
         pfinally
           (show (St_download_button "Download .wav file" audio_file_path
                    (basename audio_file_path) "audio/wav"))
           (lift (close E)))
        (fun e => show (St_placeholder_error e))
  else pret tt.

End Form.

(** ** Properties *)

Lemma append_nil_l (s : string) : "" +:+ s = s.
Proof. reflexivity. Qed.

Lemma append_cons_l (c : Ascii.ascii) (s t : string) :
  String c s +:+ t = String c (s +:+ t).
Proof. reflexivity. Qed.

Lemma prefix_app (p s : string) :
  String.prefix p s = true <-> exists rest, s = p +:+ rest.
Proof.
  revert s; induction p as [|a p IH]; intros [|b s]; simpl;
    try setoid_rewrite append_nil_l; try setoid_rewrite append_cons_l.
  - split; [now exists "" | reflexivity].
  - split; [now exists (String b s) | reflexivity].
  - split; [discriminate | intros [rest H]; discriminate].
  - destruct (Ascii.ascii_dec a b) as [->|Hne].
    + rewrite IH. split; intros [rest H]; exists rest; congruence.
    + split; [discriminate | intros [rest H]; congruence].
Qed.

Lemma str_in_unfold (needle hay : string) :
  str_in needle hay =
  if String.prefix needle hay then true
  else match hay with
       | EmptyString => false
       | String _ rest => str_in needle rest
       end.
Proof. destruct hay; reflexivity. Qed.

(** [str_in] is substring containment. *)
Lemma str_in_spec (needle hay : string) :
  str_in needle hay = true <-> exists pre post, hay = pre +:+ needle +:+ post.
Proof.
  induction hay as [|c hay IH]; rewrite str_in_unfold.
  - destruct (String.prefix needle "") eqn:Hp.
    + split; [intros _ | reflexivity].
      apply prefix_app in Hp as [rest H]. now exists "", rest.
    + split; [discriminate|]. intros [pre [post H]].
      destruct pre; [|discriminate]. rewrite append_nil_l in H.
      assert (String.prefix needle "" = true) by (apply prefix_app; eauto).
      congruence.
  - destruct (String.prefix needle (String c hay)) eqn:Hp.
    + split; [intros _ | reflexivity].
      apply prefix_app in Hp as [rest H]. now exists "", rest.
    + rewrite IH. split.
      * intros [pre [post H]]. exists (String c pre), post.
        rewrite append_cons_l. now rewrite H.
      * intros [pre [post H]]. destruct pre as [|c' pre].
        -- rewrite append_nil_l in H.
           assert (String.prefix needle (String c hay) = true)
             by (apply prefix_app; eauto).
           congruence.
        -- rewrite append_cons_l in H. injection H as _ H. eauto.
Qed.

(** *** The interval policy *)

(** [needle] occurs somewhere in [hay]. *)
Definition occurs_in (needle hay : string) : Prop :=
  exists pre post, hay = pre +:+ needle +:+ post.

(** The two tables of the specification. *)
Definition english_table (text_length : Z) : Z :=
  if text_length <? 500 then 10 else 30.

Definition other_table (text_length : Z) : Z :=
  if text_length <? 100 then 20
  else if text_length <? 500 then 30
  else 45.

Lemma interval_english (language : string) (n : Z) :
  str_in "English" language = true ->
  dynamic_poll_interval language n = english_table n.
Proof. intros H. unfold dynamic_poll_interval, english_table. now rewrite H. Qed.

Lemma interval_other (language : string) (n : Z) :
  str_in "English" language = false ->
  dynamic_poll_interval language n = other_table n.
Proof. intros H. unfold dynamic_poll_interval, other_table. now rewrite H. Qed.

Lemma tables_differ (n : Z) : english_table n <> other_table n.
Proof.
  unfold english_table, other_table.
  destruct (Z.ltb_spec n 500), (Z.ltb_spec n 100); lia.
Qed.

(** C1: the interval is a function of the label and the length that
    follows the table at every length: for a label with ["English" in
    language], 10 below 500 and 30 from 500 on; for any other label, 20
    below 100, 30 from 100 to 499 and 45 from 500 on.  In particular the
    lengths 499 and 500 get different intervals for an English label. *)
Theorem interval_matches_table (language : string) (text_length : Z) :
  (str_in "English" language = true ->
     (text_length < 500 -> dynamic_poll_interval language text_length = 10) /\
     (500 <= text_length -> dynamic_poll_interval language text_length = 30) /\
     dynamic_poll_interval language 499 <> dynamic_poll_interval language 500) /\
  (str_in "English" language = false ->
     (text_length < 100 -> dynamic_poll_interval language text_length = 20) /\
     (100 <= text_length < 500 ->
        dynamic_poll_interval language text_length = 30) /\
     (500 <= text_length -> dynamic_poll_interval language text_length = 45)).
Proof.
  split; intros H.
  - rewrite !(interval_english _ _ H). unfold english_table.
    repeat split; try discriminate.
    + intros Hlt. destruct (Z.ltb_spec text_length 500); [reflexivity | lia].
    + intros Hge. destruct (Z.ltb_spec text_length 500); [lia | reflexivity].
  - rewrite !(interval_other _ _ H). unfold other_table.
    destruct (Z.ltb_spec text_length 100), (Z.ltb_spec text_length 500);
      repeat split; intros; lia || reflexivity.
Qed.

Lemma interval_matches_table_witness :
  dynamic_poll_interval "English (en)" 499 = 10 /\
  dynamic_poll_interval "English (en)" 500 = 30 /\
  dynamic_poll_interval "Hindi (hi)" 99 = 20 /\
  dynamic_poll_interval "Hindi (hi)" 100 = 30 /\
  dynamic_poll_interval "Hindi (hi)" 500 = 45.
Proof.
  refine (conj _ (conj _ (conj _ (conj _ _)))).
  - apply (proj1 (interval_matches_table "English (en)" 499)); [reflexivity | lia].
  - apply (proj1 (interval_matches_table "English (en)" 500)); [reflexivity | lia].
  - apply (proj2 (interval_matches_table "Hindi (hi)" 99)); [reflexivity | lia].
  - apply (proj2 (interval_matches_table "Hindi (hi)" 100)); [reflexivity | lia].
  - apply (proj2 (interval_matches_table "Hindi (hi)" 500)); [reflexivity | lia].
Defined.

(** C8: the English table is chosen exactly for the labels in which
    "English" occurs somewhere; every other label, "Other" among them,
    gets the second table. *)
Theorem english_branch_iff_substring (language : string) (text_length : Z) :
  (occurs_in "English" language ->
     dynamic_poll_interval language text_length = english_table text_length) /\
  (~ occurs_in "English" language ->
     dynamic_poll_interval language text_length = other_table text_length) /\
  (dynamic_poll_interval language text_length = english_table text_length ->
     occurs_in "English" language) /\
  dynamic_poll_interval "Other" text_length = other_table text_length.
Proof.
  unfold occurs_in. rewrite <- str_in_spec.
  destruct (str_in "English" language) eqn:H.
  - rewrite (interval_english _ _ H). repeat split; congruence.
  - rewrite (interval_other _ _ H).
    repeat split; try congruence.
    intros Heq. symmetry in Heq. now apply tables_differ in Heq.
Qed.

Lemma english_branch_iff_substring_witness :
  dynamic_poll_interval "en-English-UK" 120 = 10 /\
  dynamic_poll_interval "Telugu (te)" 120 = 30.
Proof.
  split.
  - apply (proj1 (english_branch_iff_substring "en-English-UK" 120)).
    exists "en-", "-UK". reflexivity.
  - apply (proj1 (proj2 (english_branch_iff_substring "Telugu (te)" 120))).
    intros H. apply str_in_spec in H. discriminate H.
Defined.

(** *** One turn of the polling loop, case by case *)

(** The elapsed time the turn starting in [w] computes. *)
Definition elapsed_at (E : env) (start_time : float) (w : world) : float :=
  PrimFloat.sub (clock E (clock_reads w)) start_time.

(** [raise_for_status] lets the response through. *)
Definition passes (r : Response) : Prop :=
  ~ (400 <= status_code r < 600).

(** The world after the turn's request. *)
Definition asked (url : string) (w : world) : world :=
  sent (GET url false) (tick_clock w).

(** The world after a turn that warned and slept. *)
Definition warned (E : env) (url : string) (i : Z) (start_time : float)
    (e : request_error) (w : world) : world :=
  logged (Sleep i)
    (logged (Placeholder Warning (Error_checking e i (elapsed_at E start_time w)))
       (asked url w)).

Ltac run_monad :=
  unfold poll_iteration, submit_job, bind, try_except, time_time, requests_get,
    requests_post, request, raise_for_status, json, get, status_placeholder,
    time_sleep, raise, ret, elapsed_at, warned, asked in *;
  cbn [clock_reads requests_sent disk_ops trace files tick_clock sent logged
       fst snd] in *.

Lemma passes_test (r : Response) :
  passes r -> (400 <=? status_code r) && (status_code r <? 600) = false.
Proof. unfold passes. intros H. apply andb_false_iff. lia. Qed.

Lemma fails_test (r : Response) :
  400 <= status_code r < 600 ->
  (400 <=? status_code r) && (status_code r <? 600) = true.
Proof. intros H. apply andb_true_iff. lia. Qed.

Section Turn.

Variables (E : env) (job_id url : string) (i : Z) (start_time : float).

Lemma turn_timeout (w : world) :
  timed_out (elapsed_at E start_time w) = true ->
  poll_iteration E job_id url i start_time w =
    (Raised (Exception (Timed_out job_id MAX_WAIT_SECONDS)), tick_clock w).
Proof. intros H. run_monad. now rewrite H. Qed.

Lemma turn_no_response (w : world) (e : request_error) :
  timed_out (elapsed_at E start_time w) = false ->
  server E (requests_sent w) (GET url false) = inl e ->
  poll_iteration E job_id url i start_time w =
    (Returned Continue, warned E url i start_time e w).
Proof. intros H Hs. run_monad. rewrite H. cbn. now rewrite Hs. Qed.

Lemma turn_http_error (w : world) (r : Response) :
  timed_out (elapsed_at E start_time w) = false ->
  server E (requests_sent w) (GET url false) = inr r ->
  400 <= status_code r < 600 ->
  poll_iteration E job_id url i start_time w =
    (Returned Continue, warned E url i start_time (HTTPError (status_code r)) w).
Proof.
  intros H Hs Hc. run_monad. rewrite H. cbn. rewrite Hs. cbn.
  now rewrite (fails_test _ Hc).
Qed.

Lemma turn_bad_json (w : world) (r : Response) :
  timed_out (elapsed_at E start_time w) = false ->
  server E (requests_sent w) (GET url false) = inr r ->
  passes r ->
  json_body r = None ->
  poll_iteration E job_id url i start_time w =
    (Returned Continue, warned E url i start_time JSONDecodeError w).
Proof.
  intros H Hs Hc Hj. run_monad. rewrite H. cbn. rewrite Hs. cbn.
  now rewrite (passes_test _ Hc), Hj.
Qed.

Lemma turn_status (w : world) (r : Response) (d : gmap string pyval) :
  timed_out (elapsed_at E start_time w) = false ->
  server E (requests_sent w) (GET url false) = inr r ->
  passes r ->
  json_body r = Some (PDict d) ->
  poll_iteration E job_id url i start_time w =
    let current_status := dict_get d "status" in
    if eq_str current_status "complete" then
      (Returned Break,
       logged (Placeholder Success (Job_complete (elapsed_at E start_time w)))
         (asked url w))
    else if eq_str current_status "processing" then
      (Returned Continue,
       logged (Sleep i)
         (logged (Placeholder Info
                    (Still_processing (elapsed_at E start_time w) i))
            (asked url w)))
    else
      (Raised (Exception (Unknown_status current_status (PDict d))),
       asked url w).
Proof.
  intros H Hs Hc Hj. run_monad. rewrite H. cbn. rewrite Hs. cbn.
  rewrite (passes_test _ Hc), Hj. cbn.
  destruct (eq_str (dict_get d "status") "complete"); [reflexivity|].
  destruct (eq_str (dict_get d "status") "processing"); reflexivity.
Qed.

Lemma turn_not_a_dict (w : world) (r : Response) (v : pyval) :
  timed_out (elapsed_at E start_time w) = false ->
  server E (requests_sent w) (GET url false) = inr r ->
  passes r ->
  json_body r = Some v ->
  (forall d, v <> PDict d) ->
  poll_iteration E job_id url i start_time w =
    (Raised (AttributeError "get"), asked url w).
Proof.
  intros H Hs Hc Hj Hv. run_monad. rewrite H. cbn. rewrite Hs. cbn.
  rewrite (passes_test _ Hc), Hj.
  destruct v; try reflexivity. now destruct (Hv d).
Qed.

(** The loop, unfolded once. *)
Lemma poll_loop_S (fuel : nat) (w : world) :
  poll_loop E (S fuel) job_id url i start_time w =
    match poll_iteration E job_id url i start_time w with
    | (Returned Break, w') => (Returned tt, w')
    | (Returned Continue, w') => poll_loop E fuel job_id url i start_time w'
    | (Raised e, w') => (Raised e, w')
    | (Fuel_exhausted, w') => (Fuel_exhausted, w')
    end.
Proof.
  cbn [poll_loop]. unfold bind.
  destruct (poll_iteration E job_id url i start_time w) as [[[]| |] w'];
    reflexivity.
Qed.

End Turn.

(** *** Concrete worlds and environments *)

Definition idle : world :=
  {| clock_reads := 0; requests_sent := 0; disk_ops := 0;
     trace := []; files := ∅ |}.

(** A status response with the given code and JSON body. *)
Definition status_response (code : Z) (body : pyval) : Response :=
  {| status_code := code; json_body := Some body;
     chunks := []; stream_error := None |}.

(** The JSON object [{"status": s}]. *)
Definition status_is (s : string) : pyval :=
  PDict (<["status" := PStr s]> ∅).

(** The clock shows 0 when first read and [t] from then on; the server
    is unreachable. *)
Definition late (t : float) : env :=
  {| clock := fun n => match n with O => 0%float | S _ => t end;
     server := fun _ _ => inl (ConnectionError "unreachable");
     disk_fault := fun _ => None |}.

(** The clock stands still and the server answers every request with
    the code [code] and the body [{"status": s}]. *)
Definition answering (code : Z) (s : string) : env :=
  {| clock := fun _ => 0%float;
     server := fun _ _ => inr (status_response code (status_is s));
     disk_fault := fun _ => None |}.

(** *** The timeout *)

(** C2, as the code has it: a turn reads the clock once and, when it
    finds the elapsed time above the ceiling, raises at once, before any
    request is sent; the exception names the job and the ceiling
    [MAX_WAIT_SECONDS]. *)
Theorem timeout_before_request (E : env) (fuel : nat) (job_id url : string)
    (i : Z) (start_time : float) (w : world) :
  timed_out (elapsed_at E start_time w) = true ->
  let r := poll_loop E (S fuel) job_id url i start_time w in
  fst r = Raised (Exception (Timed_out job_id MAX_WAIT_SECONDS)) /\
  clock_reads (snd r) = S (clock_reads w) /\
  trace (snd r) = trace w /\
  requests_sent (snd r) = requests_sent w.
Proof.
  intros H. cbv zeta. rewrite poll_loop_S, (turn_timeout _ _ _ _ _ _ H).
  repeat split.
Qed.

Lemma timeout_before_request_witness :
  fst (poll_loop (late 6000) 1 "job-42" "/status/job-42" 20 0%float
         (tick_clock idle))
  = Raised (Exception (Timed_out "job-42" MAX_WAIT_SECONDS)).
Proof.
  refine (proj1 (timeout_before_request (late 6000) 0 "job-42" "/status/job-42"
                   20 0%float (tick_clock idle) _)).
  reflexivity.
Defined.

(** C2, as stated, fails: after 6000 seconds and after 9000 seconds the
    exception is the same, it holds the ceiling 5400 and not the elapsed
    time. *)
Lemma timeout_error_omits_elapsed :
  elapsed_at (late 6000) 0 (tick_clock idle) = 6000%float /\
  fst (poll_for_completion (late 6000) 1 "job-42" "/status/job-42" "Other" 10 idle)
  = Raised (Exception (Timed_out "job-42" 5400)) /\
  elapsed_at (late 9000) 0 (tick_clock idle) = 9000%float /\
  fst (poll_for_completion (late 9000) 1 "job-42" "/status/job-42" "Other" 10 idle)
  = Raised (Exception (Timed_out "job-42" 5400)).
Proof. repeat split. Qed.

(** *** Statuses *)

Lemma eq_str_false (v : pyval) (s : string) :
  v <> PStr s -> eq_str v s = false.
Proof.
  intros H. destruct v; try reflexivity. cbn.
  apply String.eqb_neq. congruence.
Qed.

Lemma dict_get_some (d : gmap string pyval) (k : string) (v : pyval) :
  d !! k = Some v -> dict_get d k = v.
Proof. unfold dict_get. now intros ->. Qed.

Lemma dict_get_none (d : gmap string pyval) (k : string) :
  d !! k = None -> dict_get d k = PNone.
Proof. unfold dict_get. now intros ->. Qed.

(** C3: a status that is neither "processing" nor "complete" ends the
    loop at once with the exception that holds the raw status and the
    whole body; the turn sent its one request and nothing follows it. *)
Theorem unknown_status_is_terminal (E : env) (fuel : nat) (job_id url : string)
    (i : Z) (start_time : float) (w : world) (r : Response)
    (d : gmap string pyval) :
  timed_out (elapsed_at E start_time w) = false ->
  server E (requests_sent w) (GET url false) = inr r ->
  passes r ->
  json_body r = Some (PDict d) ->
  dict_get d "status" <> PStr "processing" ->
  dict_get d "status" <> PStr "complete" ->
  let res := poll_loop E (S fuel) job_id url i start_time w in
  fst res = Raised (Exception (Unknown_status (dict_get d "status") (PDict d))) /\
  trace (snd res) = (trace w ++ [Http (GET url false)])%list /\
  requests_sent (snd res) = S (requests_sent w).
Proof.
  intros H Hs Hc Hj Hp Hd. cbv zeta.
  rewrite poll_loop_S, (turn_status _ _ _ _ _ _ _ _ H Hs Hc Hj). cbv zeta.
  rewrite (eq_str_false _ _ Hp), (eq_str_false _ _ Hd). repeat split.
Qed.

Lemma unknown_status_is_terminal_witness :
  fst (poll_loop (answering 200 "pending-review") 7 "job-42" "/status/job-42"
         10 0%float idle)
  = Raised (Exception (Unknown_status (PStr "pending-review")
                         (status_is "pending-review"))).
Proof.
  refine (proj1 (unknown_status_is_terminal (answering 200 "pending-review") 6
                   "job-42" "/status/job-42" 10 0%float idle
                   (status_response 200 (status_is "pending-review"))
                   (<["status" := PStr "pending-review"]> ∅) _ _ _ _ _ _)).
  - reflexivity.
  - reflexivity.
  - unfold passes. cbn. lia.
  - reflexivity.
  - vm_compute. discriminate.
  - vm_compute. discriminate.
Defined.

(** C10: a 2xx response whose JSON object has no "status" entry takes the
    same branch: the loop ends with the unknown-status exception, holding
    [None] and the whole body; no warning is shown and nothing is
    retried. *)
Theorem missing_status_is_terminal (E : env) (fuel : nat) (job_id url : string)
    (i : Z) (start_time : float) (w : world) (r : Response)
    (d : gmap string pyval) :
  timed_out (elapsed_at E start_time w) = false ->
  server E (requests_sent w) (GET url false) = inr r ->
  200 <= status_code r < 300 ->
  json_body r = Some (PDict d) ->
  d !! "status" = None ->
  let res := poll_loop E (S fuel) job_id url i start_time w in
  fst res = Raised (Exception (Unknown_status PNone (PDict d))) /\
  trace (snd res) = (trace w ++ [Http (GET url false)])%list /\
  requests_sent (snd res) = S (requests_sent w).
Proof.
  intros H Hs Hc Hj Hd. cbv zeta.
  assert (Hp : passes r) by (unfold passes; lia).
  rewrite poll_loop_S, (turn_status _ _ _ _ _ _ _ _ H Hs Hp Hj). cbv zeta.
  rewrite (dict_get_none _ _ Hd). repeat split.
Qed.

Lemma missing_status_is_terminal_witness :
  fst (poll_loop
         {| clock := fun _ => 0%float;
            server := fun _ _ =>
              inr (status_response 200 (PDict (<["progress" := PInt 40]> ∅)));
            disk_fault := fun _ => None |}
         3 "job-42" "/status/job-42" 10 0%float idle)
  = Raised (Exception (Unknown_status PNone (PDict (<["progress" := PInt 40]> ∅)))).
Proof.
  refine (proj1 (missing_status_is_terminal _ 2 "job-42" "/status/job-42" 10
                   0%float idle
                   (status_response 200 (PDict (<["progress" := PInt 40]> ∅)))
                   (<["progress" := PInt 40]> ∅) _ _ _ _ _)).
  - reflexivity.
  - reflexivity.
  - cbn. lia.
  - reflexivity.
  - reflexivity.
Defined.

(** *** Transport failures *)

(** The response is a 2xx one whose JSON object has the status [s]. *)
Definition reports (r : Response) (s : string) : Prop :=
  200 <= status_code r < 300 /\
  exists d, json_body r = Some (PDict d) /\ d !! "status" = Some (PStr s).

Definition is_warning (a : action) : bool :=
  match a with
  | Placeholder Warning _ => true
  | _ => false
  end.

Definition is_request (a : action) : bool :=
  match a with
  | Http _ => true
  | _ => false
  end.

Definition count (p : action -> bool) (t : list action) : nat :=
  List.length (List.filter p t).

Lemma reports_passes (r : Response) (s : string) : reports r s -> passes r.
Proof. intros [H _]. unfold passes. lia. Qed.

Lemma turn_complete (E : env) (job_id url : string) (i : Z)
    (start_time : float) (w : world) (r : Response) :
  timed_out (elapsed_at E start_time w) = false ->
  server E (requests_sent w) (GET url false) = inr r ->
  reports r "complete" ->
  poll_iteration E job_id url i start_time w =
    (Returned Break,
     logged (Placeholder Success (Job_complete (elapsed_at E start_time w)))
       (asked url w)).
Proof.
  intros H Hs Hr. pose proof (reports_passes _ _ Hr) as Hp.
  destruct Hr as [_ [d [Hj Hd]]].
  rewrite (turn_status _ _ _ _ _ _ _ _ H Hs Hp Hj). cbv zeta.
  now rewrite (dict_get_some _ _ _ Hd).
Qed.

Lemma turn_processing (E : env) (job_id url : string) (i : Z)
    (start_time : float) (w : world) (r : Response) :
  timed_out (elapsed_at E start_time w) = false ->
  server E (requests_sent w) (GET url false) = inr r ->
  reports r "processing" ->
  poll_iteration E job_id url i start_time w =
    (Returned Continue,
     logged (Sleep i)
       (logged (Placeholder Info
                  (Still_processing (elapsed_at E start_time w) i))
          (asked url w))).
Proof.
  intros H Hs Hr. pose proof (reports_passes _ _ Hr) as Hp.
  destruct Hr as [_ [d [Hj Hd]]].
  rewrite (turn_status _ _ _ _ _ _ _ _ H Hs Hp Hj). cbv zeta.
  now rewrite (dict_get_some _ _ _ Hd).
Qed.

(** The request of a turn got no response, or one with a 4xx or 5xx
    code; [e] is the exception that stands for the failure. *)
Definition fails_with (E : env) (url : string) (w : world) (e : request_error)
  : Prop :=
  server E (requests_sent w) (GET url false) = inl e \/
  exists r, server E (requests_sent w) (GET url false) = inr r /\
            400 <= status_code r < 600 /\ e = HTTPError (status_code r).

(** C4, as the code has it: when the request of a turn gets no response
    or a 4xx or 5xx one, the loop goes on: the turn shows one warning,
    sleeps for the interval and the next turn asks again.  If that next
    request is answered "complete", the loop returns, one warning having
    been shown. *)
Theorem transport_failure_is_retried (E : env) (fuel : nat)
    (job_id url : string) (i : Z) (start_time : float) (w : world)
    (e : request_error) :
  timed_out (elapsed_at E start_time w) = false ->
  fails_with E url w e ->
  let w1 := warned E url i start_time e w in
  poll_loop E (S fuel) job_id url i start_time w =
    poll_loop E fuel job_id url i start_time w1 /\
  trace w1 =
    (trace w ++
     [Http (GET url false);
      Placeholder Warning (Error_checking e i (elapsed_at E start_time w));
      Sleep i])%list /\
  (forall r2,
     timed_out (elapsed_at E start_time w1) = false ->
     server E (requests_sent w1) (GET url false) = inr r2 ->
     reports r2 "complete" ->
     let res := poll_loop E (S (S fuel)) job_id url i start_time w in
     fst res = Returned tt /\
     trace (snd res) =
       (trace w ++
        [Http (GET url false);
         Placeholder Warning (Error_checking e i (elapsed_at E start_time w));
         Sleep i;
         Http (GET url false);
         Placeholder Success (Job_complete (elapsed_at E start_time w1))])%list /\
     count is_warning (trace (snd res)) = S (count is_warning (trace w))).
Proof.
  intros H Hf w1.
  assert (Hturn : poll_iteration E job_id url i start_time w
                  = (Returned Continue, w1)).
  { destruct Hf as [Hs | [r [Hs [Hc ->]]]].
    - now apply turn_no_response.
    - now apply turn_http_error. }
  assert (Htrace : trace w1 =
    (trace w ++
     [Http (GET url false);
      Placeholder Warning (Error_checking e i (elapsed_at E start_time w));
      Sleep i])%list).
  { subst w1. unfold warned, asked. cbn. now rewrite <- !app_assoc. }
  split; [|split].
  - now rewrite poll_loop_S, Hturn.
  - exact Htrace.
  - intros r2 H2 Hs2 Hr2. cbv zeta.
    rewrite poll_loop_S, Hturn, poll_loop_S,
      (turn_complete _ _ _ _ _ _ _ H2 Hs2 Hr2).
    cbn [fst snd]. unfold asked. cbn [trace logged sent tick_clock].
    rewrite Htrace, <- !app_assoc. cbn [app].
    repeat split.
    unfold count. rewrite List.filter_app, List.length_app. cbn. lia.
Qed.

Lemma transport_failure_is_retried_witness :
  let E := {| clock := fun _ => 0%float;
              server := fun n _ =>
                match n with
                | O => inl (ConnectionError "connection reset")
                | S _ => inr (status_response 200 (status_is "complete"))
                end;
              disk_fault := fun _ => None |} in
  fst (poll_loop E 2 "job-42" "/status/job-42" 20 0%float idle) = Returned tt.
Proof.
  intros E.
  refine (proj1 (proj2 (proj2
    (transport_failure_is_retried E 0 "job-42" "/status/job-42" 20 0%float idle
       (ConnectionError "connection reset") _ _))
    (status_response 200 (status_is "complete")) _ _ _)).
  - reflexivity.
  - left. reflexivity.
  - reflexivity.
  - reflexivity.
  - split; [cbn; lia|]. eexists. split; reflexivity.
Defined.

(** C4, as stated, fails for a response that is not 2xx and not an
    error either: a 300 with the body [{"status": "failed"}] passes
    [raise_for_status], ends the loop with an exception, and no warning
    is shown. *)
Lemma response_300_ends_the_loop :
  let res := poll_for_completion (answering 300 "failed") 5 "job-42"
               "/status/job-42" "Other" 10 idle in
  fst res = Raised (Exception (Unknown_status (PStr "failed") (status_is "failed"))) /\
  count is_warning (trace (snd res)) = 0%nat /\
  count is_request (trace (snd res)) = 1%nat.
Proof. vm_compute. repeat split. Qed.

(** *** A job that completes at the third poll *)

(** C5: when the first two polls are answered "processing" and the third
    "complete", and no turn finds the ceiling exceeded, the poller
    returns, whatever the label and the length (hence the interval); it
    has sent three GET requests to the status URL, and the last event is
    the success with the elapsed time of the third turn. *)
Theorem three_polls_then_return (E : env) (fuel : nat)
    (job_id status_url language : string) (text_length : Z) (w : world)
    (r1 r2 r3 : Response) :
  let url := BASE_URL +:+ status_url in
  let i := dynamic_poll_interval language text_length in
  let elapsed k :=
    PrimFloat.sub (clock E (k + clock_reads w)) (clock E (clock_reads w)) in
  let answer k := server E (k + requests_sent w) (GET url false) in
  timed_out (elapsed 1%nat) = false ->
  timed_out (elapsed 2%nat) = false ->
  timed_out (elapsed 3%nat) = false ->
  answer 0%nat = inr r1 -> reports r1 "processing" ->
  answer 1%nat = inr r2 -> reports r2 "processing" ->
  answer 2%nat = inr r3 -> reports r3 "complete" ->
  (3 <= fuel)%nat ->
  let res := poll_for_completion E fuel job_id status_url language text_length w in
  fst res = Returned tt /\
  trace (snd res) =
    (trace w ++
     [Placeholder Info (Using_interval i);
      Http (GET url false);
      Placeholder Info (Still_processing (elapsed 1%nat) i);
      Sleep i;
      Http (GET url false);
      Placeholder Info (Still_processing (elapsed 2%nat) i);
      Sleep i;
      Http (GET url false);
      Placeholder Success (Job_complete (elapsed 3%nat))])%list /\
  requests_sent (snd res) = (3 + requests_sent w)%nat /\
  count is_request (trace (snd res)) = (3 + count is_request (trace w))%nat.
Proof.
  intros url i elapsed answer T1 T2 T3 A1 R1 A2 R2 A3 R3 Hfuel.
  destruct fuel as [|[|[|fuel]]]; try lia.
  subst elapsed answer. cbn beta in *. cbn [Nat.add] in *.
  unfold poll_for_completion, bind, status_placeholder, time_time.
  fold i. fold url.
  set (w0 := tick_clock (logged (Placeholder Info (Using_interval i)) w)).
  set (start_time := clock E (clock_reads (logged _ w))).
  rewrite poll_loop_S, (turn_processing E job_id url i start_time w0 r1 T1 A1 R1).
  set (w1 := logged (Sleep i) _).
  rewrite poll_loop_S, (turn_processing E job_id url i start_time w1 r2 T2 A2 R2).
  set (w2 := logged (Sleep i) _).
  rewrite poll_loop_S, (turn_complete E job_id url i start_time w2 r3 T3 A3 R3).
  cbn [fst snd]. repeat split.
  - cbn. now rewrite <- !app_assoc.
  - cbn. unfold count. rewrite <- !app_assoc. cbn [app].
    rewrite List.filter_app, List.length_app. cbn. lia.
Qed.

(** Two polls find the job processing, the third finds it complete. *)
Definition third_time_lucky : env :=
  {| clock := fun n =>
       match n with
       | 0%nat => 1000%float
       | 1%nat => 1000.5%float
       | 2%nat => 1011%float
       | _ => 1021.5%float
       end;
     server := fun n _ =>
       match n with
       | 0%nat | 1%nat => inr (status_response 200 (status_is "processing"))
       | _ => inr (status_response 200 (status_is "complete"))
       end;
     disk_fault := fun _ => None |}.

Lemma status_response_reports (s : string) :
  reports (status_response 200 (status_is s)) s.
Proof.
  split; [cbn; lia|]. eexists. split; [reflexivity|]. apply lookup_insert_eq.
Qed.

Lemma three_polls_then_return_witness :
  fst (poll_for_completion third_time_lucky 3 "job-42" "/status/job-42"
         "English (en)" 48 idle) = Returned tt.
Proof.
  refine (proj1 (three_polls_then_return third_time_lucky 3 "job-42"
                   "/status/job-42" "English (en)" 48 idle
                   (status_response 200 (status_is "processing"))
                   (status_response 200 (status_is "processing"))
                   (status_response 200 (status_is "complete"))
                   _ _ _ _ _ _ _ _ _ _)).
  - reflexivity.
  - reflexivity.
  - reflexivity.
  - reflexivity.
  - apply status_response_reports.
  - reflexivity.
  - apply status_response_reports.
  - reflexivity.
  - apply status_response_reports.
  - lia.
Defined.

(** *** The interval in use *)

(** The interval an action sleeps for or shows, if it has one. *)
Definition interval_of (a : action) : option Z :=
  match a with
  | Sleep seconds => Some seconds
  | Placeholder _ (Using_interval i) => Some i
  | Placeholder _ (Still_processing _ i) => Some i
  | Placeholder _ (Error_checking _ i _) => Some i
  | Placeholder _ (Job_complete _) => None
  | Http _ => None
  end.

(** Every interval among the actions [t] is [i]. *)
Definition only_interval (i : Z) (t : list action) : Prop :=
  Forall (fun a => forall j, interval_of a = Some j -> j = i) t.

Lemma interval_in_table (language : string) (n : Z) :
  let i := dynamic_poll_interval language n in
  i = 10 \/ i = 20 \/ i = 30 \/ i = 45.
Proof.
  unfold dynamic_poll_interval.
  destruct (str_in "English" language), (n <? 500), (n <? 100); auto.
Qed.

Lemma turn_trace (E : env) (job_id url : string) (i : Z) (start_time : float)
    (w : world) :
  exists t,
    trace (snd (poll_iteration E job_id url i start_time w)) = (trace w ++ t)%list
    /\ only_interval i t.
Proof.
  unfold only_interval.
  destruct (timed_out (elapsed_at E start_time w)) eqn:H.
  { rewrite (turn_timeout _ _ _ _ _ _ H). exists []. cbn.
    now rewrite app_nil_r. }
  destruct (server E (requests_sent w) (GET url false)) as [e|r] eqn:Hs.
  { rewrite (turn_no_response _ _ _ _ _ _ _ H Hs). eexists.
    unfold warned, asked. cbn. rewrite <- !app_assoc. split; [reflexivity|].
    repeat constructor; cbn; congruence. }
  destruct (Z_le_dec 400 (status_code r)) as [Hlo|Hlo];
    [destruct (Z_lt_dec (status_code r) 600) as [Hhi|Hhi]|].
  { rewrite (turn_http_error _ _ _ _ _ _ _ H Hs (conj Hlo Hhi)). eexists.
    unfold warned, asked. cbn. rewrite <- !app_assoc. split; [reflexivity|].
    repeat constructor; cbn; congruence. }
  all: assert (Hp : passes r) by (unfold passes; lia).
  all: destruct (json_body r) as [v|] eqn:Hj.
  all: try (rewrite (turn_bad_json _ _ _ _ _ _ _ H Hs Hp Hj); eexists;
            unfold warned, asked; cbn; rewrite <- !app_assoc;
            split; [reflexivity|]; repeat constructor; cbn; congruence).
  all: destruct v as [| | | | | |d];
    try (rewrite (turn_not_a_dict _ _ _ _ _ _ _ _ H Hs Hp Hj ltac:(discriminate));
         eexists; unfold asked; cbn; split; [reflexivity|];
         repeat constructor; cbn; congruence).
  all: rewrite (turn_status _ _ _ _ _ _ _ _ H Hs Hp Hj); cbv zeta;
    destruct (eq_str (dict_get d "status") "complete");
    [|destruct (eq_str (dict_get d "status") "processing")];
    eexists; unfold asked; cbn; rewrite <- ?app_assoc;
    (split; [reflexivity|]); repeat constructor; cbn; congruence.
Qed.

Lemma loop_trace (E : env) (fuel : nat) (job_id url : string) (i : Z)
    (start_time : float) (w : world) :
  exists t,
    trace (snd (poll_loop E fuel job_id url i start_time w)) = (trace w ++ t)%list
    /\ only_interval i t.
Proof.
  revert w. induction fuel as [|fuel IH]; intros w.
  - exists []. cbn. rewrite app_nil_r. split; [reflexivity | constructor].
  - rewrite poll_loop_S.
    destruct (turn_trace E job_id url i start_time w) as [t [Ht Hi]].
    destruct (poll_iteration E job_id url i start_time w) as [[[]| |] w'];
      cbn [snd] in *; try (exists t; now split).
    destruct (IH w') as [t' [Ht' Hi']].
    exists (t ++ t')%list. rewrite Ht', Ht, <- app_assoc. split; [reflexivity|].
    apply Forall_app. now split.
Qed.

(** C9: the interval of the policy is 10, 20, 30 or 45 and never the
    initial 15, and it is the only interval the poller sleeps for or
    shows: every sleep and every message of a run carries it. *)
Theorem interval_in_use (E : env) (fuel : nat)
    (job_id status_url language : string) (text_length : Z) (w : world) :
  let i := dynamic_poll_interval language text_length in
  (i = 10 \/ i = 20 \/ i = 30 \/ i = 45) /\
  i <> 15 /\
  exists t,
    trace (snd (poll_for_completion E fuel job_id status_url language
                  text_length w)) = (trace w ++ t)%list /\
    Forall (fun a => forall j, interval_of a = Some j ->
                       j = 10 \/ j = 20 \/ j = 30 \/ j = 45) t.
Proof.
  intros i. pose proof (interval_in_table language text_length) as Hi.
  cbv zeta in Hi. fold i in Hi.
  split; [exact Hi|]. split; [lia|].
  unfold poll_for_completion, bind, status_placeholder, time_time. fold i.
  match goal with
  | |- context [poll_loop E fuel job_id ?u i ?s ?w1] =>
      destruct (loop_trace E fuel job_id u i s w1) as [t [Ht Honly]]
  end.
  exists (Placeholder Info (Using_interval i) :: t).
  split.
  - rewrite Ht. cbn. now rewrite <- app_assoc.
  - constructor.
    + cbn. intros j Hj. injection Hj as <-. exact Hi.
    + unfold only_interval in Honly. rewrite Forall_forall in *.
      intros a Ha j Hj. rewrite (Honly a Ha j Hj). exact Hi.
Qed.

(** *** Submission *)

(** The request [submit_job] sends. *)
Definition submit_request (gender text : string) : Request :=
  POST (BASE_URL +:+ "/polyglot-tts/submit")
       [("gender", gender); ("text", text)] [("accept", "audio/wav")].

(** The server's answer to the submission lets [submit_job] return [p]:
    a response that passes [raise_for_status], whose body is a JSON
    object with true values for "job_id" and "status_url". *)
Definition accepted (E : env) (gender text : string) (w : world)
    (p : pyval * pyval) : Prop :=
  exists r d,
    server E (requests_sent w) (submit_request gender text) = inr r /\
    passes r /\
    json_body r = Some (PDict d) /\
    truthy (dict_get d "job_id") = true /\
    truthy (dict_get d "status_url") = true /\
    p = (dict_get d "job_id", dict_get d "status_url").

Lemma truthy_and (a b : pyval) :
  truthy (py_and a b) = truthy a && truthy b.
Proof. unfold py_and. destruct (truthy a) eqn:H; [reflexivity | exact H]. Qed.

Lemma submit_job_cases (E : env) (gender text : string) (w : world) :
  submit_job E gender text w =
    (match server E (requests_sent w) (submit_request gender text) with
     | inl e => Raised (Exception (Error_submitting e))
     | inr r =>
         if (400 <=? status_code r) && (status_code r <? 600)
         then Raised (Exception (Error_submitting (HTTPError (status_code r))))
         else match json_body r with
              | None => Raised (Exception (Error_submitting JSONDecodeError))
              | Some (PDict d) =>
                  if truthy (dict_get d "job_id") && truthy (dict_get d "status_url")
                  then Returned (dict_get d "job_id", dict_get d "status_url")
                  else Raised (Exception Missing_fields)
              | Some _ => Raised (AttributeError "get")
              end
     end,
     sent (submit_request gender text) w).
Proof.
  unfold submit_job, submit_request. run_monad.
  destruct (server E (requests_sent w) _) as [e|r]; [reflexivity|]. cbn.
  destruct ((400 <=? status_code r) && (status_code r <? 600)); [reflexivity|].
  destruct (json_body r) as [v|]; [|reflexivity].
  destruct v; try reflexivity. cbn.
  rewrite truthy_and.
  destruct (truthy (dict_get d "job_id") && truthy (dict_get d "status_url"));
    reflexivity.
Qed.

Lemma test_passes (r : Response) :
  (400 <=? status_code r) && (status_code r <? 600) = false -> passes r.
Proof. unfold passes. intros H. apply andb_false_iff in H. lia. Qed.

(** C6, as the code has it: [submit_job] sends one request whatever
    happens.  It returns the pair of the "job_id" and "status_url" values
    exactly when the request got a response that is not 4xx or 5xx, with
    a JSON object in which both values are true (present, not null, not
    empty).  A failed request, a 4xx or 5xx response and a body that is
    not JSON raise the submission error that wraps the cause; an object
    in which one of the two values is missing or false raises the
    missing-fields error; and when the call does not return, it raises. *)
Theorem submit_once (E : env) (gender text : string) (w : world) :
  let rq := submit_request gender text in
  let res := submit_job E gender text w in
  snd res = sent rq w /\
  (forall p, fst res = Returned p <-> accepted E gender text w p) /\
  (forall e, server E (requests_sent w) rq = inl e ->
     fst res = Raised (Exception (Error_submitting e))) /\
  (forall r, server E (requests_sent w) rq = inr r ->
     400 <= status_code r < 600 ->
     fst res = Raised (Exception (Error_submitting (HTTPError (status_code r))))) /\
  (forall r, server E (requests_sent w) rq = inr r ->
     passes r -> json_body r = None ->
     fst res = Raised (Exception (Error_submitting JSONDecodeError))) /\
  (forall r d, server E (requests_sent w) rq = inr r ->
     passes r -> json_body r = Some (PDict d) ->
     truthy (dict_get d "job_id") = false \/
     truthy (dict_get d "status_url") = false ->
     fst res = Raised (Exception Missing_fields)) /\
  ((exists p, fst res = Returned p) \/ (exists e, fst res = Raised e)).
Proof.
  intros rq res. subst res. rewrite submit_job_cases. fold rq. cbn [fst snd].
  unfold accepted. fold rq.
  refine (conj _ (conj _ (conj _ (conj _ (conj _ (conj _ _)))))).
  - reflexivity.
  - intros p. split.
    + intros H.
      destruct (server E (requests_sent w) rq) as [e|r] eqn:Hs; [discriminate|].
      destruct ((400 <=? status_code r) && (status_code r <? 600)) eqn:Hc;
        [discriminate|].
      destruct (json_body r) as [[| | | | | |d]|] eqn:Hj; try discriminate.
      destruct (truthy (dict_get d "job_id") && truthy (dict_get d "status_url"))
        eqn:Ht; [|discriminate].
      injection H as <-. apply andb_true_iff in Ht as [Hjob Hurl].
      exists r, d. repeat split; auto using test_passes.
    + intros (r & d & Hr & Hp & Hj & Hjob & Hurl & ->).
      now rewrite Hr, (passes_test _ Hp), Hj, Hjob, Hurl.
  - intros e He. now rewrite He.
  - intros r Hr Hc. now rewrite Hr, (fails_test _ Hc).
  - intros r Hr Hp Hj. now rewrite Hr, (passes_test _ Hp), Hj.
  - intros r d Hr Hp Hj Hor. rewrite Hr, (passes_test _ Hp), Hj.
    destruct Hor as [-> | ->]; [reflexivity | now rewrite andb_false_r].
  - destruct (server E (requests_sent w) rq) as [e|r]; [eauto|].
    destruct ((400 <=? status_code r) && (status_code r <? 600)); [eauto|].
    destruct (json_body r) as [[| | | | | |d]|]; eauto.
    destruct (truthy (dict_get d "job_id") && truthy (dict_get d "status_url"));
      eauto.
Qed.

(** The server answers every request with the code [code] and the JSON
    object [body]. *)
Definition replying (code : Z) (body : gmap string pyval) : env :=
  {| clock := fun _ => 0%float;
     server := fun _ _ => inr (status_response code (PDict body));
     disk_fault := fun _ => None |}.

Definition handle_42 : gmap string pyval :=
  <["job_id" := PStr "job-42"]>
    (<["status_url" := PStr "/polyglot-tts/status/job-42"]> ∅).

Definition handle_empty : gmap string pyval :=
  <["job_id" := PStr ""]> (<["status_url" := PStr "/status/1"]> ∅).

Lemma submit_once_witness :
  fst (submit_job (replying 200 handle_42) "female" "Hello" idle)
  = Returned (PStr "job-42", PStr "/polyglot-tts/status/job-42").
Proof.
  apply (proj1 (proj2 (submit_once (replying 200 handle_42) "female" "Hello" idle))).
  exists (status_response 200 (PDict handle_42)), handle_42.
  refine (conj _ (conj _ (conj _ (conj _ (conj _ _))))); try reflexivity.
  unfold passes. cbn. lia.
Defined.

(** C6, as stated, fails in both directions: a 200 response whose body
    has both fields, the job id being the empty string, is refused; and
    a 300 response, which is not 2xx, with a good body is accepted. *)
Lemma submit_refuses_empty_accepts_300 :
  handle_empty !! "job_id" = Some (PStr "") /\
  handle_empty !! "status_url" = Some (PStr "/status/1") /\
  fst (submit_job (replying 200 handle_empty) "female" "Hello" idle)
  = Raised (Exception Missing_fields) /\
  fst (submit_job (replying 300 handle_42) "female" "Hello" idle)
  = Returned (PStr "job-42", PStr "/polyglot-tts/status/job-42").
Proof. vm_compute. repeat split. Qed.

(** *** Retrieval *)

Section Disk.

Variables (E : env) (path : string).

(** None of the [n] disk operations from the [from]-th on fails. *)
Definition no_fault (from n : nat) : Prop :=
  forall k, (k < n)%nat -> disk_fault E (k + from) = None.

(** One of them fails with [detail]. *)
Definition fault (from n : nat) (detail : string) : Prop :=
  exists k, (k < n)%nat /\ disk_fault E (k + from) = Some detail.

(** How iterating over the body ends. *)
Definition ending (stream_end : option string) : outcome unit :=
  match stream_end with
  | None => Returned tt
  | Some detail => Raised (RequestException (ChunkedEncodingError detail))
  end.

Lemma disk_op_fault {A} (run : M A) (w : world) (d : string) :
  disk_fault E (disk_ops w) = Some d ->
  disk_op E run w = (Raised (OSError d), tick_disk w).
Proof. unfold disk_op. now intros ->. Qed.

Lemma disk_op_ok {A} (run : M A) (w : world) :
  disk_fault E (disk_ops w) = None ->
  disk_op E run w = run (tick_disk w).
Proof. unfold disk_op. now intros ->. Qed.

Lemma write_chunks_spec (pieces : list (list Byte.byte))
    (stream_end : option string) (w : world) (acc : list Byte.byte) :
  files w !! path = Some acc ->
  let res := write_chunks E path pieces stream_end w in
  (no_fault (disk_ops w) (List.length pieces) /\
   fst res = ending stream_end /\
   disk_ops (snd res) = (List.length pieces + disk_ops w)%nat /\
   files (snd res) !! path = Some (acc ++ concat pieces)%list)
  \/
  (exists j d, (j < List.length pieces)%nat /\
     disk_fault E (j + disk_ops w) = Some d /\
     fst res = Raised (OSError d) /\
     disk_ops (snd res) = (S j + disk_ops w)%nat).
Proof.
  revert w acc. induction pieces as [|chunk rest IH]; intros w acc Hacc; cbv zeta.
  - left. cbn [write_chunks List.length concat]. rewrite app_nil_r.
    split; [|split; [|split]].
    + intros k Hk. lia.
    + now destruct stream_end.
    + now destruct stream_end.
    + now destruct stream_end.
  - cbn [write_chunks]. unfold bind, write, disk_op.
    destruct (disk_fault E (disk_ops w)) as [d|] eqn:Hf.
    + right. exists 0%nat, d. cbn. split; [lia|]. now repeat split.
    + cbn [files tick_disk]. rewrite Hacc. cbn [default id].
      set (w1 := stored path (acc ++ chunk)%list _).
      assert (H1 : files w1 !! path = Some (acc ++ chunk)%list)
        by apply lookup_insert_eq.
      destruct (IH w1 _ H1) as [(Hn & Hr & Hd & Hfile) | (j & d & Hj & Hjd & Hr & Hd)].
      * left. cbn [List.length concat]. rewrite app_assoc.
        split; [|split; [|split]].
        -- intros [|k] Hk; [exact Hf|].
           specialize (Hn k ltac:(lia)). cbn in Hn.
           now rewrite Nat.add_succ_r in Hn.
        -- exact Hr.
        -- rewrite Hd. cbn. lia.
        -- exact Hfile.
      * right. exists (S j), d. cbn [List.length].
        split; [lia|]. split; [|split].
        -- cbn in Hjd. now rewrite Nat.add_succ_r in Hjd.
        -- exact Hr.
        -- rewrite Hd. cbn. lia.
Qed.

(** The disk operations of a run that no failure cuts short: opening,
    one write for each piece, closing, and the size check when the body
    arrived whole. *)
Definition planned (pieces : list (list Byte.byte)) (stream_end : option string)
  : nat :=
  (List.length pieces + match stream_end with None => 3 | Some _ => 2 end)%nat.

(** What [download_result] does once the response has passed
    [raise_for_status] (lines 110 to 117). *)
Definition save (pieces : list (list Byte.byte)) (stream_end : option string)
  : M string :=
  (open_wb E path ;;
   finally (write_chunks E path pieces stream_end) (close E) ;;
   size <- getsize E path ;;
   if size =? 0 then raise (Exception File_is_empty) else ret path)%py.

Lemma save_spec (pieces : list (list Byte.byte)) (stream_end : option string)
    (w : world) :
  has_nul path = false ->
  let n := List.length pieces in
  let res := save pieces stream_end w in
  (no_fault (disk_ops w) (n + 3) /\ stream_end = None /\
   files (snd res) !! path = Some (concat pieces) /\
   fst res = if Z.of_nat (List.length (concat pieces)) =? 0
             then Raised (Exception File_is_empty)
             else Returned path)
  \/
  (no_fault (disk_ops w) (n + 2) /\
   exists d, stream_end = Some d /\
             fst res = Raised (RequestException (ChunkedEncodingError d)))
  \/
  (exists d, fault (disk_ops w) (planned pieces stream_end) d /\
             fst res = Raised (OSError d)).
Proof.
  intros Hpath. cbv zeta. unfold save, bind, open_wb, planned. rewrite Hpath.
  destruct (disk_fault E (disk_ops w)) as [d|] eqn:Hopen.
  { rewrite (disk_op_fault _ _ _ Hopen).
    right. right. exists d. split; [|reflexivity].
    exists 0%nat. split; [destruct stream_end; lia|exact Hopen]. }
  rewrite (disk_op_ok _ _ Hopen).
  set (w1 := stored path [] (tick_disk w)).
  assert (H1 : files w1 !! path = Some []) by apply lookup_insert_eq.
  assert (Hops : disk_ops w1 = S (disk_ops w)) by reflexivity.
  unfold finally, close.
  destruct (write_chunks_spec pieces stream_end w1 [] H1)
    as [(Hn & Hr & Hd & Hfile) | (j & d & Hj & Hjd & Hr & Hd)];
    destruct (write_chunks E path pieces stream_end w1) as [o w2];
    cbn [fst snd] in *; subst o; rewrite Hops in *.
  - (* every piece was written *)
    assert (Hn1 : no_fault (disk_ops w) (List.length pieces + 1)).
    { intros [|k] Hk; [exact Hopen|]. specialize (Hn k ltac:(lia)).
      now rewrite Nat.add_succ_r in Hn. }
    destruct (disk_fault E (disk_ops w2)) as [d|] eqn:Hclose.
    { rewrite (disk_op_fault _ _ _ Hclose).
      right. right. exists d. split.
      - exists (List.length pieces + 1)%nat.
        split; [destruct stream_end; lia|].
        rewrite <- Hclose, Hd. f_equal. lia.
      - now destruct stream_end. }
    rewrite (disk_op_ok _ _ Hclose).
    assert (Hn2 : no_fault (disk_ops w) (List.length pieces + 2)).
    { intros k Hk. destruct (Nat.eq_dec k (List.length pieces + 1)%nat) as [->|Hne].
      - rewrite <- Hclose, Hd. f_equal. lia.
      - apply Hn1. lia. }
    destruct stream_end as [d|]; cbn [ending ret].
    { right. left. split; [exact Hn2|]. now exists d. }
    unfold getsize. rewrite Hpath.
    destruct (disk_fault E (disk_ops (tick_disk w2))) as [d|] eqn:Hsize.
    { rewrite (disk_op_fault _ _ _ Hsize).
      right. right. exists d. split; [|reflexivity].
      exists (List.length pieces + 2)%nat. split; [lia|].
      rewrite <- Hsize. cbn. rewrite Hd. f_equal. lia. }
    rewrite (disk_op_ok _ _ Hsize). cbn [files tick_disk].
    left. rewrite Hfile. cbn [app].
    split; [|split; [reflexivity|]].
    { intros k Hk. destruct (Nat.eq_dec k (List.length pieces + 2)%nat) as [->|Hne].
      - rewrite <- Hsize. cbn. rewrite Hd. f_equal. lia.
      - apply Hn2. lia. }
    destruct (Z.of_nat (List.length (concat pieces)) =? 0); cbn;
      split; easy.
  - (* a write failed *)
    right. right.
    destruct (disk_fault E (disk_ops w2)) as [d'|] eqn:Hclose.
    + rewrite (disk_op_fault _ _ _ Hclose).
      exists d'. split; [|reflexivity].
      exists (j + 2)%nat. split; [destruct stream_end; lia|].
      rewrite <- Hclose, Hd. f_equal. lia.
    + rewrite (disk_op_ok _ _ Hclose).
      exists d. split; [|reflexivity].
      exists (j + 1)%nat. split; [destruct stream_end; lia|].
      rewrite <- Hjd. f_equal. lia.
Qed.

(** A name that holds NUL stops [save] at [open], before the disk is
    touched. *)
Lemma save_nul (pieces : list (list Byte.byte)) (stream_end : option string)
    (w : world) :
  has_nul path = true ->
  save pieces stream_end w = (Raised (ValueError "embedded null byte"), w).
Proof. intros Hpath. unfold save, bind, open_wb. now rewrite Hpath. Qed.

End Disk.

Definition result_url (job_id : string) : string :=
  BASE_URL +:+ "/polyglot-tts/result/" +:+ job_id.

Definition output_filename (job_id : string) : string := job_id +:+ ".wav".

(** The two [except] clauses of [download_result]. *)
Definition wrapped (res : outcome string * world) : outcome string * world :=
  match res with
  | (Raised (RequestException e), w') =>
      (Raised (Exception (Error_downloading e)), w')
  | (Raised (OSError detail), w') =>
      (Raised (Exception (Error_writing detail)), w')
  | _ => res
  end.

Lemma download_result_cases (E : env) (job_id : string) (w : world) :
  let rq := GET (result_url job_id) true in
  download_result E job_id w =
    match server E (requests_sent w) rq with
    | inl e => (Raised (Exception (Error_downloading e)), sent rq w)
    | inr r =>
        if (400 <=? status_code r) && (status_code r <? 600)
        then (Raised (Exception (Error_downloading (HTTPError (status_code r)))),
              sent rq w)
        else wrapped (save E (output_filename job_id) (chunks r)
                        (stream_error r) (sent rq w))
    end.
Proof.
  cbv zeta. unfold download_result, try_except, requests_get, request.
  fold (result_url job_id). fold (output_filename job_id).
  unfold bind at 1.
  destruct (server E (requests_sent w) (GET (result_url job_id) true))
    as [e|r]; [reflexivity|].
  unfold bind at 1, raise_for_status.
  destruct ((400 <=? status_code r) && (status_code r <? 600)); [reflexivity|].
  unfold ret at 1, wrapped, save.
  destruct ((open_wb E (output_filename job_id);;
      finally
        (write_chunks E (output_filename job_id) (chunks r) (stream_error r))
        (close E);;
      size <- getsize E (output_filename job_id);;
      (if size =? 0 then raise (Exception File_is_empty)
       else ret (output_filename job_id)))%py (sent (GET (result_url job_id) true) w))
    as [[p|[e|d|d|d|m]|] w']; reflexivity.
Qed.

Lemma no_fault_excludes (E : env) (from n : nat) (d : string) :
  no_fault E from n -> fault E from n d -> False.
Proof. intros Hn (k & Hk & Hd). rewrite (Hn k Hk) in Hd. discriminate. Qed.

(** C7, as the code has it, for a job id that can name a file (no NUL
    character in it): after a 2xx response whose body arrives whole and
    is written without a disk failure, the file named after the job, with
    the extension .wav, holds the bytes received; [download_result]
    raises the empty-file error when their number is zero, and otherwise
    returns the name of that file, and nothing but the name.  A request
    that fails, a 4xx or 5xx response and a body that breaks off raise
    the download error that wraps the cause; a disk operation that fails
    with [OSError] raises the write error that wraps the detail of such a
    failure.  For such a job id no other outcome exists. *)
Theorem download_result_checked (E : env) (job_id : string) (w : world) :
  has_nul (output_filename job_id) = false ->
  let rq := GET (result_url job_id) true in
  let path := output_filename job_id in
  let res := download_result E job_id w in
  (forall r,
     server E (requests_sent w) rq = inr r ->
     200 <= status_code r < 300 ->
     stream_error r = None ->
     no_fault E (disk_ops w) (List.length (chunks r) + 3) ->
     let size := Z.of_nat (List.length (concat (chunks r))) in
     files (snd res) !! path = Some (concat (chunks r)) /\
     (size = 0 -> fst res = Raised (Exception File_is_empty)) /\
     (size <> 0 -> fst res = Returned path)) /\
  (forall e,
     server E (requests_sent w) rq = inl e ->
     fst res = Raised (Exception (Error_downloading e))) /\
  (forall r,
     server E (requests_sent w) rq = inr r ->
     400 <= status_code r < 600 ->
     fst res = Raised (Exception (Error_downloading (HTTPError (status_code r))))) /\
  (forall r d,
     server E (requests_sent w) rq = inr r ->
     passes r ->
     stream_error r = Some d ->
     no_fault E (disk_ops w) (List.length (chunks r) + 2) ->
     fst res = Raised (Exception (Error_downloading (ChunkedEncodingError d)))) /\
  (forall r d0,
     server E (requests_sent w) rq = inr r ->
     passes r ->
     fault E (disk_ops w) (planned (chunks r) (stream_error r)) d0 ->
     exists d, fault E (disk_ops w) (planned (chunks r) (stream_error r)) d /\
               fst res = Raised (Exception (Error_writing d))) /\
  (fst res = Returned path \/
   fst res = Raised (Exception File_is_empty) \/
   (exists e, fst res = Raised (Exception (Error_downloading e))) \/
   (exists d, fst res = Raised (Exception (Error_writing d)))).
Proof.
  intros Hnul rq path res. subst res.
  pose proof (download_result_cases E job_id w) as Hcases. cbv zeta in Hcases.
  fold rq in Hcases. fold path in Hcases. rewrite Hcases. clear Hcases.
  pose proof (fun pieces stream_end =>
                save_spec E path pieces stream_end (sent rq w) Hnul) as Hsave.
  refine (conj _ (conj _ (conj _ (conj _ (conj _ _))))).
  - intros r Hs Hc Hend Hn size.
    assert (Hp : passes r) by (unfold passes; lia).
    rewrite Hs, (passes_test _ Hp).
    destruct (Hsave (chunks r) (stream_error r))
      as [(_ & _ & Hfile & Hres) | [(_ & d & Hd & _) | (d & Hd & _)]].
    + destruct (save E path (chunks r) (stream_error r) (sent rq w)) as [o w'].
      cbn [fst snd] in *. subst o. fold size.
      destruct (Z.eqb_spec size 0) as [Hz|Hz]; cbn [wrapped fst snd];
        (split; [exact Hfile|]); split; intros; congruence.
    + congruence.
    + unfold planned in Hd. rewrite Hend in Hd.
      destruct (no_fault_excludes _ _ _ _ Hn Hd).
  - intros e Hs. now rewrite Hs.
  - intros r Hs Hc. now rewrite Hs, (fails_test _ Hc).
  - intros r d Hs Hp Hend Hn. rewrite Hs, (passes_test _ Hp).
    destruct (Hsave (chunks r) (stream_error r))
      as [(_ & Hnone & _) | [(_ & d' & Hd' & Hres) | (d' & Hd' & _)]].
    + congruence.
    + destruct (save E path (chunks r) (stream_error r) (sent rq w)) as [o w'].
      cbn [fst] in *. subst o. cbn. congruence.
    + unfold planned in Hd'. rewrite Hend in Hd'.
      destruct (no_fault_excludes _ _ _ _ Hn Hd').
  - intros r d0 Hs Hp Hf. rewrite Hs, (passes_test _ Hp).
    destruct (Hsave (chunks r) (stream_error r))
      as [(Hn & Hnone & _) | [(Hn & d' & Hd' & _) | (d' & Hd' & Hres)]].
    + unfold planned in Hf. rewrite Hnone in Hf.
      destruct (no_fault_excludes _ _ _ _ Hn Hf).
    + unfold planned in Hf. rewrite Hd' in Hf.
      destruct (no_fault_excludes _ _ _ _ Hn Hf).
    + exists d'. split; [exact Hd'|].
      destruct (save E path (chunks r) (stream_error r) (sent rq w)) as [o w'].
      cbn [fst] in *. now subst o.
  - destruct (server E (requests_sent w) rq) as [e|r]; [eauto|].
    destruct ((400 <=? status_code r) && (status_code r <? 600)); [eauto|].
    destruct (Hsave (chunks r) (stream_error r))
      as [(_ & _ & _ & Hres) | [(_ & d' & _ & Hres) | (d' & _ & Hres)]];
      destruct (save E path (chunks r) (stream_error r) (sent rq w)) as [o w'];
      cbn [fst] in *; subst o.
    + destruct (Z.of_nat (List.length (concat (chunks r))) =? 0); cbn; eauto.
    + cbn. eauto.
    + cbn. eauto 6.
Qed.

(** The server sends the pieces [pieces] with the code 200; the disk
    never fails. *)
Definition serving (pieces : list (list Byte.byte)) : env :=
  {| clock := fun _ => 0%float;
     server := fun _ _ =>
       inr {| status_code := 200; json_body := None;
              chunks := pieces; stream_error := None |};
     disk_fault := fun _ => None |}.

Lemma download_result_checked_witness :
  fst (download_result (serving [[Byte.x52; Byte.x49]; [Byte.x46; Byte.x46]])
         "job-42" idle) = Returned "job-42.wav" /\
  fst (download_result (serving []) "job-42" idle)
  = Raised (Exception File_is_empty).
Proof.
  split.
  - refine (proj2 (proj2 (proj1
      (download_result_checked
         (serving [[Byte.x52; Byte.x49]; [Byte.x46; Byte.x46]]) "job-42" idle
         eq_refl)
      _ eq_refl _ eq_refl _)) _).
    + cbn. lia.
    + intros k _. reflexivity.
    + cbn. lia.
  - refine (proj1 (proj2 (proj1
      (download_result_checked (serving []) "job-42" idle eq_refl)
      _ eq_refl _ eq_refl _)) _).
    + cbn. lia.
    + intros k _. reflexivity.
    + reflexivity.
Defined.

(** A job id that starts with the NUL character. *)
Definition nul_job : string := String Ascii.zero "job-42".

(** C7, as stated, fails.  [download_result] returns the name of the
    file and no size: a download of two bytes and a download of four
    bytes return the same value, while the files on disk have two and
    four bytes.  And a failure to open the file is not always wrapped:
    for a job id that holds NUL, [open] raises [ValueError], which
    neither [except] clause catches. *)
Lemma download_returns_the_name_only :
  let small := download_result (serving [[Byte.x52; Byte.x49]]) "job-42" idle in
  let large := download_result
                 (serving [[Byte.x52; Byte.x49]; [Byte.x46; Byte.x46]])
                 "job-42" idle in
  fst small = Returned "job-42.wav" /\
  fst large = Returned "job-42.wav" /\
  files (snd small) !! "job-42.wav" = Some [Byte.x52; Byte.x49] /\
  files (snd large) !! "job-42.wav"
  = Some [Byte.x52; Byte.x49; Byte.x46; Byte.x46] /\
  fst (download_result (serving [[Byte.x52; Byte.x49]]) nul_job idle)
  = Raised (ValueError "embedded null byte").
Proof. vm_compute. repeat split. Qed.

(** ** Further properties of the polling loop *)

Lemma eq_str_true (v : pyval) (s : string) :
  eq_str v s = true <-> v = PStr s.
Proof.
  destruct v; cbn; try (split; [discriminate | intros H; discriminate H]).
  rewrite String.eqb_eq. split; congruence.
Qed.

(** What the request of a turn can fail with: no response, a 4xx or 5xx
    response, or a body that is not JSON. *)
Inductive retry_cause (E : env) (url : string) (w : world)
  : request_error -> Prop :=
| No_response e :
    server E (requests_sent w) (GET url false) = inl e ->
    retry_cause E url w e
| Error_status r :
    server E (requests_sent w) (GET url false) = inr r ->
    400 <= status_code r < 600 ->
    retry_cause E url w (HTTPError (status_code r))
| Not_json r :
    server E (requests_sent w) (GET url false) = inr r ->
    passes r ->
    json_body r = None ->
    retry_cause E url w JSONDecodeError.

(** The request of a turn is answered by a response that passes
    [raise_for_status] and whose body is the JSON value [v]. *)
Definition answered (E : env) (url : string) (w : world) (v : pyval) : Prop :=
  exists r, server E (requests_sent w) (GET url false) = inr r /\
            passes r /\ json_body r = Some v.

(** The six ways a turn of the loop can go. *)
Inductive turn (E : env) (job_id url : string) (i : Z) (start_time : float)
    (w : world) : outcome loop_ctl * world -> Prop :=
| Turn_timeout :
    timed_out (elapsed_at E start_time w) = true ->
    turn E job_id url i start_time w
      (Raised (Exception (Timed_out job_id MAX_WAIT_SECONDS)), tick_clock w)
| Turn_retry e :
    timed_out (elapsed_at E start_time w) = false ->
    retry_cause E url w e ->
    turn E job_id url i start_time w
      (Returned Continue, warned E url i start_time e w)
| Turn_complete d :
    timed_out (elapsed_at E start_time w) = false ->
    answered E url w (PDict d) ->
    dict_get d "status" = PStr "complete" ->
    turn E job_id url i start_time w
      (Returned Break,
       logged (Placeholder Success (Job_complete (elapsed_at E start_time w)))
         (asked url w))
| Turn_processing d :
    timed_out (elapsed_at E start_time w) = false ->
    answered E url w (PDict d) ->
    dict_get d "status" = PStr "processing" ->
    turn E job_id url i start_time w
      (Returned Continue,
       logged (Sleep i)
         (logged (Placeholder Info
                    (Still_processing (elapsed_at E start_time w) i))
            (asked url w)))
| Turn_unknown d :
    timed_out (elapsed_at E start_time w) = false ->
    answered E url w (PDict d) ->
    dict_get d "status" <> PStr "complete" ->
    dict_get d "status" <> PStr "processing" ->
    turn E job_id url i start_time w
      (Raised (Exception (Unknown_status (dict_get d "status") (PDict d))),
       asked url w)
| Turn_not_a_dict v :
    timed_out (elapsed_at E start_time w) = false ->
    answered E url w v ->
    (forall d, v <> PDict d) ->
    turn E job_id url i start_time w
      (Raised (AttributeError "get"), asked url w).

(** Every turn goes one of those ways. *)
Lemma turn_total (E : env) (job_id url : string) (i : Z) (start_time : float)
    (w : world) :
  turn E job_id url i start_time w (poll_iteration E job_id url i start_time w).
Proof.
  destruct (timed_out (elapsed_at E start_time w)) eqn:H.
  { rewrite (turn_timeout _ _ _ _ _ _ H). now constructor. }
  destruct (server E (requests_sent w) (GET url false)) as [e|r] eqn:Hs.
  { rewrite (turn_no_response _ _ _ _ _ _ _ H Hs).
    constructor; [exact H | now constructor]. }
  destruct (Z_le_dec 400 (status_code r)) as [Hlo|Hlo];
    [destruct (Z_lt_dec (status_code r) 600) as [Hhi|Hhi]|].
  { rewrite (turn_http_error _ _ _ _ _ _ _ H Hs (conj Hlo Hhi)).
    constructor; [exact H | now apply Error_status]. }
  all: assert (Hp : passes r) by (unfold passes; lia).
  all: destruct (json_body r) as [v|] eqn:Hj;
    [|rewrite (turn_bad_json _ _ _ _ _ _ _ H Hs Hp Hj);
      constructor; [exact H | now apply (Not_json _ _ _ r)]].
  all: assert (Ha : answered E url w v) by (exists r; auto).
  all: destruct v as [| | | | | |d];
    try (rewrite (turn_not_a_dict _ _ _ _ _ _ _ _ H Hs Hp Hj ltac:(discriminate));
         eapply Turn_not_a_dict; [exact H | exact Ha | discriminate]).
  all: rewrite (turn_status _ _ _ _ _ _ _ _ H Hs Hp Hj); cbv zeta;
    destruct (eq_str (dict_get d "status") "complete") eqn:Hc;
    [apply eq_str_true in Hc; now apply Turn_complete with (d := d)|];
    destruct (eq_str (dict_get d "status") "processing") eqn:Hq;
    [apply eq_str_true in Hq; now apply Turn_processing with (d := d)|];
    apply Turn_unknown; auto; intros Heq; apply eq_str_true in Heq; congruence.
Qed.

(** What a turn leaves alone and what it counts. *)
Lemma turn_frame (E : env) (job_id url : string) (i : Z) (start_time : float)
    (w : world) (o : outcome loop_ctl) (w' : world) :
  turn E job_id url i start_time w (o, w') ->
  files w' = files w /\
  disk_ops w' = disk_ops w /\
  clock_reads w' = S (clock_reads w) /\
  (requests_sent w' <= S (requests_sent w))%nat /\
  (o = Returned Continue -> requests_sent w' = S (requests_sent w)).
Proof.
  intros H. inversion H; subst; cbn; repeat split; auto; discriminate.
Qed.

Section Loop.

Variables (E : env) (job_id url : string) (i : Z) (start_time : float).

(** X1: a turn that finds the job processing shows the elapsed time and
    the interval, sleeps for the interval, and the loop goes on. *)
Theorem processing_is_polled_again (fuel : nat) (w : world) (r : Response) :
  timed_out (elapsed_at E start_time w) = false ->
  server E (requests_sent w) (GET url false) = inr r ->
  reports r "processing" ->
  exists w1,
    poll_loop E (S fuel) job_id url i start_time w = poll_loop E fuel job_id url i start_time w1 /\
    trace w1 =
      (trace w ++
       [Http (GET url false);
        Placeholder Info (Still_processing (elapsed_at E start_time w) i);
        Sleep i])%list /\
    clock_reads w1 = S (clock_reads w) /\
    requests_sent w1 = S (requests_sent w).
Proof.
  intros H Hs Hr. eexists. split; [|split; [|split]].
  - rewrite poll_loop_S, (turn_processing _ _ _ _ _ _ _ H Hs Hr). reflexivity.
  - unfold asked. cbn. now rewrite <- !app_assoc.
  - reflexivity.
  - reflexivity.
Qed.

(** X2: a response that is not an error but whose body is not JSON is
    treated like a failed request: one warning naming the decoding
    error, a sleep, and the loop goes on. *)
Theorem bad_json_is_retried (fuel : nat) (w : world) (r : Response) :
  timed_out (elapsed_at E start_time w) = false ->
  server E (requests_sent w) (GET url false) = inr r ->
  passes r ->
  json_body r = None ->
  exists w1,
    poll_loop E (S fuel) job_id url i start_time w = poll_loop E fuel job_id url i start_time w1 /\
    trace w1 =
      (trace w ++
       [Http (GET url false);
        Placeholder Warning
          (Error_checking JSONDecodeError i (elapsed_at E start_time w));
        Sleep i])%list.
Proof.
  intros H Hs Hp Hj. eexists. split.
  - rewrite poll_loop_S, (turn_bad_json _ _ _ _ _ _ _ H Hs Hp Hj). reflexivity.
  - unfold warned, asked. cbn. now rewrite <- !app_assoc.
Qed.

(** X3: a JSON body that is not an object (a list, a string, a number,
    null) ends the loop with the [AttributeError] of [data.get]: it is
    not a [RequestException], so no warning is shown and nothing is
    retried. *)
Theorem non_object_body_ends_the_loop (fuel : nat) (w : world) (r : Response)
    (v : pyval) :
  timed_out (elapsed_at E start_time w) = false ->
  server E (requests_sent w) (GET url false) = inr r ->
  passes r ->
  json_body r = Some v ->
  (forall d, v <> PDict d) ->
  let res := poll_loop E (S fuel) job_id url i start_time w in
  fst res = Raised (AttributeError "get") /\
  trace (snd res) = (trace w ++ [Http (GET url false)])%list.
Proof.
  intros H Hs Hp Hj Hv. cbv zeta.
  rewrite poll_loop_S, (turn_not_a_dict _ _ _ _ _ _ _ _ H Hs Hp Hj Hv).
  split; reflexivity.
Qed.

(** X4: the loop returns only from a turn whose request was answered
    with the status "complete"; the last two actions of the run are that
    request and the success message. *)
Theorem returns_only_on_complete (fuel : nat) (w w' : world) :
  poll_loop E fuel job_id url i start_time w = (Returned tt, w') ->
  exists w1 d,
    timed_out (elapsed_at E start_time w1) = false /\
    answered E url w1 (PDict d) /\
    dict_get d "status" = PStr "complete" /\
    w' = logged (Placeholder Success (Job_complete (elapsed_at E start_time w1)))
           (asked url w1).
Proof.
  revert w. induction fuel as [|fuel IH]; intros w Hrun; [discriminate|].
  rewrite poll_loop_S in Hrun.
  pose proof (turn_total E job_id url i start_time w) as Hturn.
  destruct (poll_iteration E job_id url i start_time w) as [[[]| |] w1]; try discriminate.
  - injection Hrun as <-. inversion Hturn; subst. eauto 6.
  - eauto.
Qed.


(** The turn that reads the clock for the [k]-th time after [w]. *)
Definition reading (w : world) (k : nat) : float :=
  PrimFloat.sub (clock E (k + clock_reads w)) start_time.

(** X6: the ceiling bounds the loop: if the [k]-th reading from now finds
    the ceiling exceeded, the loop ends within [k+1] turns, whatever the
    server answers, and sends at most [k] requests. *)
Theorem ceiling_ends_the_loop (k fuel : nat) (w : world) :
  timed_out (reading w k) = true ->
  (k < fuel)%nat ->
  let res := poll_loop E fuel job_id url i start_time w in
  fst res <> Fuel_exhausted /\
  (requests_sent (snd res) <= k + requests_sent w)%nat.
Proof.
  revert fuel w. induction k as [|k IH]; intros fuel w Ht Hk;
    (destruct fuel as [|fuel]; [lia|]); cbv zeta; rewrite poll_loop_S.
  - unfold reading in Ht. cbn [Nat.add] in Ht.
    rewrite (turn_timeout _ _ _ _ _ _ Ht). cbn. split; [discriminate | lia].
  - pose proof (turn_total E job_id url i start_time w) as Hturn.
    destruct (poll_iteration E job_id url i start_time w) as [o w1].
    destruct (turn_frame _ _ _ _ _ _ _ _ Hturn) as (_ & _ & Hc & Hle & Heq).
    destruct o as [[]| |]; cbn [fst snd]; try (split; [discriminate | lia]).
    + assert (Ht1 : timed_out (reading w1 k) = true).
      { unfold reading in *. rewrite Hc.
        now replace (k + S (clock_reads w))%nat with (S k + clock_reads w)%nat by lia. }
      destruct (IH fuel w1 Ht1 ltac:(lia)) as [Hne Hreq].
      split; [exact Hne|]. rewrite (Heq eq_refl) in Hreq. lia.
    + inversion Hturn.
Qed.

(** X7: while the job is processing and the ceiling is not reached the
    loop does not stop: after any number of turns it is still polling,
    one request and one clock reading a turn. *)
Theorem processing_keeps_polling (fuel : nat) (w : world) :
  (forall k, timed_out (reading w k) = false) ->
  (forall k, exists r,
     server E (k + requests_sent w) (GET url false) = inr r /\
     reports r "processing") ->
  let res := poll_loop E fuel job_id url i start_time w in
  fst res = Fuel_exhausted /\
  requests_sent (snd res) = (fuel + requests_sent w)%nat /\
  clock_reads (snd res) = (fuel + clock_reads w)%nat.
Proof.
  revert w. induction fuel as [|fuel IH]; intros w Ht Hs; cbv zeta.
  - repeat split.
  - destruct (Hs 0%nat) as [r [Hr Hp]].
    rewrite poll_loop_S, (turn_processing _ _ _ _ _ _ _ (Ht 0%nat) Hr Hp).
    set (w1 := logged (Sleep i) _).
    destruct (IH w1) as (Hf & Hreq & Hclk).
    + intros k. specialize (Ht (S k)). unfold reading in *. cbn in *.
      now rewrite Nat.add_succ_r.
    + intros k. destruct (Hs (S k)) as [r' [Hr' Hp']]. exists r'. cbn in *.
      now rewrite Nat.add_succ_r.
    + rewrite Hf, Hreq, Hclk. cbn. repeat split; lia.
Qed.

(** X8: the loop never touches the disk. *)
Theorem loop_leaves_disk_alone (fuel : nat) (w : world) :
  files (snd (poll_loop E fuel job_id url i start_time w)) = files w /\
  disk_ops (snd (poll_loop E fuel job_id url i start_time w)) = disk_ops w.
Proof.
  revert w. induction fuel as [|fuel IH]; intros w; [now split|].
  rewrite poll_loop_S.
  pose proof (turn_total E job_id url i start_time w) as Hturn.
  destruct (poll_iteration E job_id url i start_time w) as [o w1].
  destruct (turn_frame _ _ _ _ _ _ _ _ Hturn) as (Hf & Hd & _).
  destruct o as [[]| |]; cbn [snd]; auto.
  destruct (IH w1) as [Hf' Hd']. split; congruence.
Qed.

End Loop.

Section Shape.

Variables (E : env) (job_id url : string) (i : Z) (start_time : float).

(** What a turn that goes on adds to the trace: the request, a message
    (progress or warning) and the sleep. *)
Inductive waiting_turn : list action -> Prop :=
| Shown_processing e :
    waiting_turn [Http (GET url false);
                  Placeholder Info (Still_processing e i);
                  Sleep i]
| Shown_warning c e :
    waiting_turn [Http (GET url false);
                  Placeholder Warning (Error_checking c i e);
                  Sleep i].

Inductive waiting_turns : list action -> Prop :=
| No_turn : waiting_turns []
| One_more t rest :
    waiting_turn t -> waiting_turns rest -> waiting_turns (t ++ rest).

(** What the last turn of a run adds, by the way the run ends. *)
Definition last_turn (o : outcome unit) (t : list action) : Prop :=
  match o with
  | Returned _ =>
      exists e, t = [Http (GET url false); Placeholder Success (Job_complete e)]
  | Raised (Exception (Timed_out _ _)) => t = []
  | Raised _ => t = [Http (GET url false)]
  | Fuel_exhausted => t = []
  end.

Lemma continue_shape (w w1 : world) :
  turn E job_id url i start_time w (Returned Continue, w1) ->
  exists t, waiting_turn t /\ trace w1 = (trace w ++ t)%list.
Proof.
  intros H. inversion H; subst.
  - exists [Http (GET url false);
            Placeholder Warning (Error_checking e i (elapsed_at E start_time w));
            Sleep i].
    split; [constructor|]. unfold warned, asked. cbn. now rewrite <- !app_assoc.
  - exists [Http (GET url false);
            Placeholder Info (Still_processing (elapsed_at E start_time w) i);
            Sleep i].
    split; [constructor|]. unfold asked. cbn. now rewrite <- !app_assoc.
Qed.

(** X9: the trace of a run: any number of turns, each made of a GET to
    the status URL, a progress or warning message and a sleep for the
    interval; then nothing if the run timed out, the request alone if
    its answer raised, the request and the success message if the run
    returned.  Every request is a GET to the one status URL. *)
Theorem loop_trace_shape (fuel : nat) (w : world) :
  exists turns final,
    trace (snd (poll_loop E fuel job_id url i start_time w))
    = (trace w ++ turns ++ final)%list /\
    waiting_turns turns /\
    last_turn (fst (poll_loop E fuel job_id url i start_time w)) final.
Proof.
  revert w. induction fuel as [|fuel IH]; intros w.
  - exists [], []. cbn. rewrite app_nil_r. repeat split. constructor.
  - rewrite poll_loop_S.
    pose proof (turn_total E job_id url i start_time w) as Hturn.
    destruct (poll_iteration E job_id url i start_time w) as [[[]| |] w1].
    + inversion Hturn; subst.
      exists [], [Http (GET url false);
                  Placeholder Success (Job_complete (elapsed_at E start_time w))].
      cbn [fst snd app]. unfold asked. cbn. rewrite <- !app_assoc.
      split; [reflexivity|]. split; [constructor | eexists; reflexivity].
    + destruct (continue_shape _ _ Hturn) as (t & Ht & Htr).
      destruct (IH w1) as (turns & final & Heq & Hturns & Hlast).
      exists (t ++ turns)%list, final. rewrite Heq, Htr, <- !app_assoc.
      split; [reflexivity|]. split; [now constructor | exact Hlast].
    + inversion Hturn; subst.
      * exists [], []. cbn. rewrite app_nil_r. repeat split. constructor.
      * exists [], [Http (GET url false)]. cbn. repeat split. constructor.
      * exists [], [Http (GET url false)]. cbn. repeat split. constructor.
    + inversion Hturn.
Qed.

(** The elapsed time a message shows, if it shows one. *)
Definition elapsed_of (a : action) : option float :=
  match a with
  | Placeholder _ (Job_complete e) => Some e
  | Placeholder _ (Still_processing e _) => Some e
  | Placeholder _ (Error_checking _ _ e) => Some e
  | _ => None
  end.

Definition within_ceiling (t : list action) : Prop :=
  Forall (fun a => forall e, elapsed_of a = Some e -> timed_out e = false) t.

Ltac within_ceiling_tac :=
  repeat (constructor;
          [cbn [elapsed_of]; intros ? Heq;
           first [discriminate Heq | injection Heq as <-; assumption] |]);
  constructor.

Lemma turn_within_ceiling (w : world) (o : outcome loop_ctl) (w1 : world) :
  turn E job_id url i start_time w (o, w1) ->
  exists t, trace w1 = (trace w ++ t)%list /\ within_ceiling t.
Proof.
  unfold within_ceiling. intros H. inversion H; subst.
  - exists []. cbn. now rewrite app_nil_r.
  - exists [Http (GET url false);
            Placeholder Warning (Error_checking e i (elapsed_at E start_time w));
            Sleep i].
    unfold warned, asked. cbn. rewrite <- !app_assoc. split; [reflexivity|].
    within_ceiling_tac.
  - exists [Http (GET url false);
            Placeholder Success (Job_complete (elapsed_at E start_time w))].
    unfold asked. cbn. rewrite <- !app_assoc. split; [reflexivity|].
    within_ceiling_tac.
  - exists [Http (GET url false);
            Placeholder Info (Still_processing (elapsed_at E start_time w) i);
            Sleep i].
    unfold asked. cbn. rewrite <- !app_assoc. split; [reflexivity|].
    within_ceiling_tac.
  - exists [Http (GET url false)]. unfold asked. cbn. split; [reflexivity|].
    within_ceiling_tac.
  - exists [Http (GET url false)]. unfold asked. cbn. split; [reflexivity|].
    within_ceiling_tac.
Qed.

(** X10: no message of a run shows an elapsed time above the ceiling: a
    turn that finds the ceiling exceeded shows nothing. *)
Theorem shown_times_within_ceiling (fuel : nat) (w : world) :
  exists t,
    trace (snd (poll_loop E fuel job_id url i start_time w)) = (trace w ++ t)%list /\
    within_ceiling t.
Proof.
  revert w. induction fuel as [|fuel IH]; intros w.
  - exists []. cbn. rewrite app_nil_r. split; [reflexivity | constructor].
  - rewrite poll_loop_S.
    pose proof (turn_total E job_id url i start_time w) as Hturn.
    destruct (poll_iteration E job_id url i start_time w) as [o w1].
    destruct (turn_within_ceiling _ _ _ Hturn) as (t & Ht & Hin).
    destruct o as [[]| |]; cbn [snd]; try (exists t; now split).
    destruct (IH w1) as (t' & Heq & Hall).
    exists (t ++ t')%list. rewrite Heq, Ht, <- app_assoc.
    split; [reflexivity|]. apply Forall_app. now split.
Qed.

End Shape.

(** ** Further properties of the interval policy *)

(** X11: a longer text never gets a shorter interval. *)
Theorem interval_monotone (language : string) (n m : Z) :
  n <= m ->
  dynamic_poll_interval language n <= dynamic_poll_interval language m.
Proof.
  intros H. unfold dynamic_poll_interval.
  destruct (str_in "English" language);
    destruct (Z.ltb_spec n 500), (Z.ltb_spec m 500),
             (Z.ltb_spec n 100), (Z.ltb_spec m 100); lia.
Qed.

Lemma interval_monotone_witness :
  dynamic_poll_interval "Tamil (ta)" 99 <= dynamic_poll_interval "Tamil (ta)" 100.
Proof. apply (interval_monotone "Tamil (ta)" 99 100). lia. Defined.

(** X12: at every length an English label is polled at least as often as
    any label: its interval is never the longer one. *)
Theorem english_interval_is_least (english language : string) (n : Z) :
  str_in "English" english = true ->
  dynamic_poll_interval english n <= dynamic_poll_interval language n.
Proof.
  intros H. unfold dynamic_poll_interval. rewrite H.
  destruct (str_in "English" language);
    destruct (Z.ltb_spec n 500), (Z.ltb_spec n 100); lia.
Qed.

Lemma english_interval_is_least_witness :
  dynamic_poll_interval "English (en)" 700 <= dynamic_poll_interval "Other" 700.
Proof. apply (english_interval_is_least "English (en)" "Other" 700). reflexivity. Defined.

(** The labels the form offers (lines 137 to 139). *)
Definition language_options : list string :=
  ["English (en)"; "Hindi (hi)"; "Telugu (te)"; "Tamil (ta)"; "Other"].

(** X13: of the labels the form offers, the first gets the English table
    and each of the four others the second table. *)
Theorem offered_labels (language : string) (n : Z) :
  In language language_options ->
  dynamic_poll_interval language n =
    if String.eqb language "English (en)" then english_table n
    else other_table n.
Proof.
  unfold language_options. cbn [In].
  intros [<- | [<- | [<- | [<- | [<- | []]]]]]; reflexivity.
Qed.

Lemma offered_labels_witness :
  dynamic_poll_interval "Telugu (te)" 250 = 30.
Proof.
  apply (offered_labels "Telugu (te)" 250). cbn. auto.
Defined.

(** ** Further properties of the submission *)

(** X14: a response whose JSON body is not an object makes [submit_job]
    raise the [AttributeError] of [job_data.get]; the [except] clause
    does not wrap it, and the one request has been sent. *)
Theorem submit_non_object_body (E : env) (gender text : string) (w : world)
    (r : Response) (v : pyval) :
  server E (requests_sent w) (submit_request gender text) = inr r ->
  passes r ->
  json_body r = Some v ->
  (forall d, v <> PDict d) ->
  submit_job E gender text w =
    (Raised (AttributeError "get"), sent (submit_request gender text) w).
Proof.
  intros Hs Hp Hj Hv. rewrite submit_job_cases, Hs, (passes_test _ Hp), Hj.
  destruct v; try reflexivity. now destruct (Hv d).
Qed.

(** The clock stands still, the disk never fails and the server answers
    every request with [r]. *)
Definition always (r : Response) : env :=
  {| clock := fun _ => 0%float;
     server := fun _ _ => inr r;
     disk_fault := fun _ => None |}.

Lemma submit_non_object_body_witness :
  fst (submit_job (always (status_response 200 (PList [PStr "job-42"])))
         "female" "Hello" idle)
  = Raised (AttributeError "get").
Proof.
  refine (f_equal fst
            (submit_non_object_body
               (always (status_response 200 (PList [PStr "job-42"])))
               "female" "Hello" idle
               (status_response 200 (PList [PStr "job-42"]))
               (PList [PStr "job-42"]) eq_refl _ eq_refl _)).
  - unfold passes. cbn. lia.
  - discriminate.
Defined.

(** *** Runs of the loop *)

(** The clock shows 0, then 3000, then 6000 seconds; the job is
    processing for ever. *)
Definition drifting : env :=
  {| clock := fun n =>
       match n with
       | 0%nat => 0%float
       | 1%nat => 3000%float
       | _ => 6000%float
       end;
     server := fun _ _ => inr (status_response 200 (status_is "processing"));
     disk_fault := fun _ => None |}.

Lemma processing_is_polled_again_witness :
  exists w1,
    poll_loop (answering 200 "processing") 1 "job-42" "/status/job-42" 20
      0%float idle
    = poll_loop (answering 200 "processing") 0 "job-42" "/status/job-42" 20
        0%float w1 /\
    requests_sent w1 = 1%nat.
Proof.
  destruct (processing_is_polled_again (answering 200 "processing") "job-42"
              "/status/job-42" 20 0%float 0 idle
              (status_response 200 (status_is "processing"))
              eq_refl eq_refl (status_response_reports "processing"))
    as (w1 & Hrun & _ & _ & Hreq).
  exists w1. split; [exact Hrun | exact Hreq].
Defined.

Lemma bad_json_is_retried_witness :
  exists w1,
    poll_loop (serving []) 1 "job-42" "/status/job-42" 20 0%float idle
    = poll_loop (serving []) 0 "job-42" "/status/job-42" 20 0%float w1.
Proof.
  destruct (bad_json_is_retried (serving []) "job-42" "/status/job-42" 20
              0%float 0 idle
              {| status_code := 200; json_body := None;
                 chunks := []; stream_error := None |}
              eq_refl eq_refl ltac:(unfold passes; cbn; lia) eq_refl)
    as (w1 & Hrun & _).
  exists w1. exact Hrun.
Defined.

Lemma non_object_body_ends_the_loop_witness :
  fst (poll_loop (always (status_response 200 (PStr "complete"))) 4 "job-42"
         "/status/job-42" 20 0%float idle)
  = Raised (AttributeError "get").
Proof.
  refine (proj1 (non_object_body_ends_the_loop
                   (always (status_response 200 (PStr "complete"))) "job-42"
                   "/status/job-42" 20 0%float 3 idle
                   (status_response 200 (PStr "complete")) (PStr "complete")
                   eq_refl eq_refl _ eq_refl _)).
  - unfold passes. cbn. lia.
  - discriminate.
Defined.

Lemma returns_only_on_complete_witness :
  exists w1 d,
    answered third_time_lucky "/status/job-42" w1 (PDict d) /\
    dict_get d "status" = PStr "complete".
Proof.
  destruct (returns_only_on_complete third_time_lucky "job-42" "/status/job-42"
              10 1000%float 3 (tick_clock idle)
              (snd (poll_loop third_time_lucky 3 "job-42" "/status/job-42" 10
                      1000%float (tick_clock idle)))
              eq_refl)
    as (w1 & d & _ & Ha & Hd & _).
  exists w1, d. split; [exact Ha | exact Hd].
Defined.


Lemma ceiling_ends_the_loop_witness :
  fst (poll_loop drifting 9 "job-42" "/status/job-42" 20 0%float
         (tick_clock idle)) <> Fuel_exhausted.
Proof.
  refine (proj1 (ceiling_ends_the_loop drifting "job-42" "/status/job-42" 20
                   0%float 1 9 (tick_clock idle) _ _)).
  - reflexivity.
  - lia.
Defined.

Lemma processing_keeps_polling_witness :
  requests_sent (snd (poll_loop (answering 200 "processing") 6 "job-42"
                        "/status/job-42" 20 0%float idle)) = 6%nat.
Proof.
  refine (proj1 (proj2 (processing_keeps_polling (answering 200 "processing")
                          "job-42" "/status/job-42" 20 0%float 6 idle _ _))).
  - intros k. reflexivity.
  - intros k. exists (status_response 200 (status_is "processing")).
    split; [reflexivity | apply status_response_reports].
Defined.

(** ** Further properties of the retrieval *)

Section Frame.

Variables (E : env) (path : string).

(** [w'] differs from [w] at most in the file [path] and in the count of
    disk operations. *)
Definition only_file_changed (w w' : world) : Prop :=
  trace w' = trace w /\
  clock_reads w' = clock_reads w /\
  requests_sent w' = requests_sent w /\
  forall p, p <> path -> files w' !! p = files w !! p.

(** A computation that changes at most the file [path]. *)
Definition confined {A} (c : M A) : Prop :=
  forall w, only_file_changed w (snd (c w)).

Lemma only_file_changed_refl (w : world) : only_file_changed w w.
Proof. now repeat split. Qed.

Lemma only_file_changed_trans (w1 w2 w3 : world) :
  only_file_changed w1 w2 -> only_file_changed w2 w3 -> only_file_changed w1 w3.
Proof.
  intros (Ht & Hc & Hr & Hf) (Ht' & Hc' & Hr' & Hf').
  repeat split; try congruence. intros p Hp. now rewrite Hf', Hf.
Qed.

Lemma confined_ret {A} (a : A) : confined (ret a).
Proof. intros w. apply only_file_changed_refl. Qed.

Lemma confined_raise {A} (e : exn) : confined (@raise A e).
Proof. intros w. apply only_file_changed_refl. Qed.

Lemma confined_bind {A B} (c : M A) (k : A -> M B) :
  confined c -> (forall a, confined (k a)) -> confined (bind c k).
Proof.
  intros Hc Hk w. unfold bind. specialize (Hc w).
  destruct (c w) as [[a| |] w1]; cbn [snd] in *; auto.
  eapply only_file_changed_trans; [exact Hc | apply Hk].
Qed.

Lemma confined_finally {A} (body : M A) (cleanup : M unit) :
  confined body -> confined cleanup -> confined (finally body cleanup).
Proof.
  intros Hb Hc w. unfold finally. specialize (Hb w).
  destruct (body w) as [[a| |] w1]; cbn [snd] in *; auto;
    specialize (Hc w1); destruct (cleanup w1) as [[[]| |] w2]; cbn [snd] in *;
    eapply only_file_changed_trans; eauto.
Qed.

Lemma confined_disk_op {A} (run : M A) : confined run -> confined (disk_op E run).
Proof.
  intros Hr w. unfold disk_op.
  destruct (disk_fault E (disk_ops w)); [now repeat split|].
  specialize (Hr (tick_disk w)). exact Hr.
Qed.

Lemma confined_stored {A} (a : A) (content : world -> list Byte.byte) :
  confined (fun w => (Returned a, stored path (content w) w)).
Proof.
  intros w. repeat split. intros p Hp. cbn. now apply lookup_insert_ne.
Qed.

Lemma confined_write_chunks (pieces : list (list Byte.byte))
    (stream_end : option string) :
  confined (write_chunks E path pieces stream_end).
Proof.
  induction pieces as [|chunk rest IH]; cbn [write_chunks].
  - destruct stream_end; [apply confined_raise | apply confined_ret].
  - apply confined_bind; [|intros _; exact IH].
    apply confined_disk_op.
    apply (confined_stored tt (fun w => default [] (files w !! path) ++ chunk)%list).
Qed.

Lemma confined_save (pieces : list (list Byte.byte)) (stream_end : option string) :
  confined (save E path pieces stream_end).
Proof.
  unfold save, open_wb, getsize. apply confined_bind.
  { destruct (has_nul path); [apply confined_raise|].
    apply confined_disk_op. apply (confined_stored tt (fun _ => [])). }
  intros _. apply confined_bind.
  { apply confined_finally; [apply confined_write_chunks|].
    apply confined_disk_op, confined_ret. }
  intros _. apply confined_bind.
  { destruct (has_nul path); [apply confined_raise|].
    apply confined_disk_op. intros w.
    destruct (files w !! path); apply only_file_changed_refl. }
  intros size. destruct (size =? 0); [apply confined_raise | apply confined_ret].
Qed.

End Frame.

Lemma wrapped_world (res : outcome string * world) :
  snd (wrapped res) = snd res.
Proof. destruct res as [[p|[e|d|d|d|m]|] w]; reflexivity. Qed.

(** The world [download_result] ends in differs from the one after its
    request at most in the file of the job. *)
Lemma download_result_confined (E : env) (job_id : string) (w : world) :
  only_file_changed (output_filename job_id)
    (sent (GET (result_url job_id) true) w)
    (snd (download_result E job_id w)).
Proof.
  pose proof (download_result_cases E job_id w) as H. cbv zeta in H. rewrite H.
  destruct (server E (requests_sent w) (GET (result_url job_id) true)) as [e|r];
    [apply only_file_changed_refl|].
  destruct ((400 <=? status_code r) && (status_code r <? 600));
    [apply only_file_changed_refl|].
  rewrite wrapped_world. apply confined_save.
Qed.

(** X15: whatever happens, [download_result] sends one request, the
    streaming GET of the result URL of the job; it reads no clock and
    shows nothing. *)
Theorem download_sends_one_request (E : env) (job_id : string) (w : world) :
  let res := download_result E job_id w in
  trace (snd res) = (trace w ++ [Http (GET (result_url job_id) true)])%list /\
  requests_sent (snd res) = S (requests_sent w) /\
  clock_reads (snd res) = clock_reads w.
Proof.
  destruct (download_result_confined E job_id w) as (Ht & Hc & Hr & _).
  cbv zeta. now rewrite Ht, Hc, Hr.
Qed.



(** X17: when the request fails, when the response is 4xx or 5xx, when
    the name of the file holds NUL and when the file cannot be opened,
    the files are as they were: a file of an earlier download of the same
    job is neither emptied nor removed. *)
Theorem failed_download_keeps_files (E : env) (job_id : string) (w : world) :
  (exists e, server E (requests_sent w) (GET (result_url job_id) true) = inl e) \/
  (exists r, server E (requests_sent w) (GET (result_url job_id) true) = inr r /\
             400 <= status_code r < 600) \/
  has_nul (output_filename job_id) = true \/
  (exists d, disk_fault E (disk_ops w) = Some d) ->
  files (snd (download_result E job_id w)) = files w.
Proof.
  pose proof (download_result_cases E job_id w) as H. cbv zeta in H. rewrite H.
  intros [[e He] | [[r [Hr Hc]] | Hrest]].
  - now rewrite He.
  - now rewrite Hr, (fails_test _ Hc).
  - destruct (server E (requests_sent w) (GET (result_url job_id) true)) as [e|r];
      [reflexivity|].
    destruct ((400 <=? status_code r) && (status_code r <? 600)); [reflexivity|].
    rewrite wrapped_world.
    destruct (has_nul (output_filename job_id)) eqn:Hnul.
    + now rewrite save_nul.
    + destruct Hrest as [Hn | [d Hd]]; [discriminate|].
      unfold save, bind, open_wb. rewrite Hnul.
      now rewrite (disk_op_fault E _ (sent _ w) d Hd).
Qed.

Lemma failed_download_keeps_files_witness :
  files (snd (download_result (late 0) "job-42"
                (stored "job-42.wav" [Byte.x52] idle))) !! "job-42.wav"
  = Some [Byte.x52].
Proof.
  rewrite (failed_download_keeps_files (late 0) "job-42"
             (stored "job-42.wav" [Byte.x52] idle)).
  - reflexivity.
  - left. eexists. reflexivity.
Defined.

(** X18: a job id that holds the NUL character gets its request sent, and
    then the [ValueError] of [open] leaves [download_result] as it is:
    neither [except] clause wraps it, and the disk is not touched. *)
Theorem nul_job_id_escapes (E : env) (job_id : string) (w : world)
    (r : Response) :
  has_nul (output_filename job_id) = true ->
  server E (requests_sent w) (GET (result_url job_id) true) = inr r ->
  passes r ->
  download_result E job_id w =
    (Raised (ValueError "embedded null byte"),
     sent (GET (result_url job_id) true) w).
Proof.
  intros Hnul Hs Hp.
  pose proof (download_result_cases E job_id w) as H. cbv zeta in H.
  rewrite H, Hs, (passes_test _ Hp). now rewrite save_nul.
Qed.

Lemma nul_job_id_escapes_witness :
  fst (download_result (serving [[Byte.x52]]) nul_job idle)
  = Raised (ValueError "embedded null byte").
Proof.
  refine (f_equal fst (nul_job_id_escapes (serving [[Byte.x52]]) nul_job idle
            {| status_code := 200; json_body := None;
               chunks := [[Byte.x52]]; stream_error := None |}
            eq_refl eq_refl _)).
  unfold passes. cbn. lia.
Defined.

(** X19: a body that breaks off leaves on disk the pieces that arrived
    before: the file is not removed, and the error is the download error
    that wraps the cause. *)
Theorem broken_stream_leaves_partial_file (E : env) (job_id : string)
    (w : world) (r : Response) (d : string) :
  has_nul (output_filename job_id) = false ->
  server E (requests_sent w) (GET (result_url job_id) true) = inr r ->
  passes r ->
  stream_error r = Some d ->
  no_fault E (disk_ops w) (List.length (chunks r) + 2) ->
  let res := download_result E job_id w in
  fst res = Raised (Exception (Error_downloading (ChunkedEncodingError d))) /\
  files (snd res) !! output_filename job_id = Some (concat (chunks r)).
Proof.
  intros Hnul Hs Hp Hend Hn. cbv zeta.
  pose proof (download_result_cases E job_id w) as H. cbv zeta in H.
  rewrite H, Hs, (passes_test _ Hp), Hend. clear H.
  set (w0 := sent (GET (result_url job_id) true) w).
  set (path := output_filename job_id) in *.
  unfold save, bind, open_wb. rewrite Hnul.
  rewrite (disk_op_ok E _ w0 (Hn 0%nat ltac:(lia))).
  set (w1 := stored path [] (tick_disk w0)).
  assert (H1 : files w1 !! path = Some []) by apply lookup_insert_eq.
  unfold finally, close.
  destruct (write_chunks_spec E path (chunks r) (Some d) w1 [] H1)
    as [(_ & Hr & Hd & Hfile) | (j & d' & Hj & Hjd & _)].
  - destruct (write_chunks E path (chunks r) (Some d) w1) as [o w2].
    cbn [fst snd ending] in *. subst o.
    assert (Hclose : disk_fault E (disk_ops w2) = None).
    { rewrite Hd. specialize (Hn (List.length (chunks r) + 1)%nat ltac:(lia)).
      rewrite <- Hn. f_equal. cbn. lia. }
    rewrite (disk_op_ok E _ w2 Hclose). cbn. split; [reflexivity | exact Hfile].
  - specialize (Hn (S j) ltac:(lia)).
    unfold w1, w0 in Hjd. cbn in Hjd. rewrite Nat.add_succ_r in Hjd.
    cbn in Hn. congruence.
Qed.

(** A response whose body breaks off after one piece. *)
Definition cut_short : Response :=
  {| status_code := 200; json_body := None;
     chunks := [[Byte.x52; Byte.x49]];
     stream_error := Some "connection broken" |}.

Lemma broken_stream_leaves_partial_file_witness :
  files (snd (download_result (always cut_short) "job-42" idle)) !! "job-42.wav"
  = Some [Byte.x52; Byte.x49].
Proof.
  refine (proj2 (broken_stream_leaves_partial_file (always cut_short) "job-42"
                   idle cut_short "connection broken" eq_refl eq_refl _ eq_refl _)).
  - unfold passes. cbn. lia.
  - intros k _. reflexivity.
Defined.

(** What [download_result] has done when it returns a name. *)
Lemma download_returned (E : env) (job_id : string) (w : world) (p : string) :
  fst (download_result E job_id w) = Returned p ->
  p = output_filename job_id /\
  has_nul p = false /\
  exists r,
    server E (requests_sent w) (GET (result_url job_id) true) = inr r /\
    files (snd (download_result E job_id w)) !! p = Some (concat (chunks r)) /\
    concat (chunks r) <> [].
Proof.
  pose proof (download_result_cases E job_id w) as H. cbv zeta in H. rewrite H.
  clear H.
  destruct (server E (requests_sent w) (GET (result_url job_id) true)) as [e|r];
    [discriminate|].
  destruct ((400 <=? status_code r) && (status_code r <? 600)); [discriminate|].
  set (w0 := sent (GET (result_url job_id) true) w).
  destruct (has_nul (output_filename job_id)) eqn:Hnul.
  { rewrite save_nul by exact Hnul. discriminate. }
  destruct (save_spec E (output_filename job_id) (chunks r) (stream_error r) w0 Hnul)
    as [(_ & _ & Hfile & Hres) | [(_ & d & _ & Hres) | (d & _ & Hres)]];
    destruct (save E (output_filename job_id) (chunks r) (stream_error r) w0)
      as [o w'];
    cbn [fst snd] in *; subst o; cbn [wrapped fst]; try discriminate.
  destruct (Z.eqb_spec (Z.of_nat (List.length (concat (chunks r)))) 0)
    as [Hz|Hz]; cbn [wrapped fst snd]; [discriminate|].
  intros Hp. injection Hp as <-. split; [reflexivity|]. split; [exact Hnul|].
  exists r. split; [reflexivity|]. split; [exact Hfile|].
  intros Hnil. rewrite Hnil in Hz. now apply Hz.
Qed.

(** X20: a name that [download_result] returns is the name of the job's
    file, and that file is on disk and is not empty. *)
Theorem returned_file_is_not_empty (E : env) (job_id : string) (w : world)
    (p : string) :
  fst (download_result E job_id w) = Returned p ->
  p = output_filename job_id /\
  exists content,
    files (snd (download_result E job_id w)) !! p = Some content /\
    content <> [].
Proof.
  intros H.
  destruct (download_returned E job_id w p H) as (Hp & _ & r & _ & Hf & Hne).
  split; [exact Hp|]. exists (concat (chunks r)). now split.
Qed.

Lemma returned_file_is_not_empty_witness :
  exists content,
    files (snd (download_result
                  (serving [[Byte.x52; Byte.x49]; [Byte.x46; Byte.x46]])
                  "job-42" idle)) !! "job-42.wav" = Some content /\
    content <> [].
Proof.
  refine (proj2 (returned_file_is_not_empty
                   (serving [[Byte.x52; Byte.x49]; [Byte.x46; Byte.x46]])
                   "job-42" idle "job-42.wav" _)).
  reflexivity.
Defined.

(** A stand-in for [str] that is right on strings. *)
Definition str_of (v : pyval) : string :=
  match v with
  | PStr s => s
  | _ => "?"
  end.

(** The server accepts the job, finds it complete at the first poll and
    sends four bytes. *)
Definition obliging : env :=
  {| clock := fun _ => 0%float;
     server := fun _ rq =>
       match rq with
       | POST _ _ _ => inr (status_response 200 (PDict handle_42))
       | GET _ false => inr (status_response 200 (status_is "complete"))
       | GET _ true =>
           inr {| status_code := 200; json_body := None;
                  chunks := [[Byte.x52; Byte.x49]; [Byte.x46; Byte.x46]];
                  stream_error := None |}
       end;
     disk_fault := fun _ => None |}.

Definition blank : session := {| core := idle; page := [] |}.

Example form_handler_run :
  form_handler obliging str_of 3 true "female" "English (en)" "Hello" blank
  = (Returned tt,
     {| core := core (snd (form_handler obliging str_of 3 true "female"
                             "English (en)" "Hello" blank));
        page := [St_empty;
                 St_spinner "Submitting job to API..."; St_spinner_exit;
                 St_success "job-42";
                 St_spinner "Downloading audio file..."; St_spinner_exit;
                 St_balloons; St_subheader "Listen to your audio:";
                 St_audio "job-42.wav" "audio/wav";
                 St_download_button "Download .wav file" "job-42.wav"
                   "job-42.wav" "audio/wav"] |}).
Proof. vm_compute. reflexivity. Qed.

Example form_handler_trace :
  trace (core (snd (form_handler obliging str_of 3 true "female" "English (en)"
                      "Hello" blank)))
  = [Http (submit_request "female" "Hello");
     Placeholder Info (Using_interval 10);
     Http (GET (BASE_URL +:+ "/polyglot-tts/status/job-42") false);
     Placeholder Success (Job_complete 0);
     Http (GET (result_url "job-42") true)].
Proof. vm_compute. reflexivity. Qed.

(** *** The stages of the handler *)

(** The session after the calls [cs] were made and the world became [w]. *)
Definition shown (cs : list st_call) (w : world) (s : session) : session :=
  {| core := w; page := page s ++ cs |}.

Definition page_submitting : list st_call :=
  [St_empty; St_spinner "Submitting job to API..."; St_spinner_exit].

Definition page_submitted (job_id : string) : list st_call :=
  page_submitting ++ [St_success job_id].

Definition page_downloading (job_id : string) : list st_call :=
  page_submitted job_id ++
  [St_spinner "Downloading audio file..."; St_spinner_exit].

Definition page_listening (job_id path : string) : list st_call :=
  page_downloading job_id ++
  [St_balloons; St_subheader "Listen to your audio:"; St_audio path "audio/wav"].

Definition page_offering (job_id path : string) : list st_call :=
  page_listening job_id path ++
  [St_download_button "Download .wav file" path (basename path) "audio/wav"].

(** How a stage that raised, or ran out of fuel, ends the handler. *)
Definition stopped {A} (o : outcome A) (cs : list st_call) (w : world)
    (s : session) : outcome unit * session :=
  match o with
  | Raised e => (Returned tt, shown (cs ++ [St_placeholder_error e]) w s)
  | _ => (Fuel_exhausted, shown cs w s)
  end.

Section Stages.

Variables (E : env) (py_str : pyval -> string).

(** The handler, stage by stage. *)
Lemma form_handler_stages (fuel : nat) (gender language text : string)
    (s : session) :
  is_empty text = false ->
  form_handler E py_str fuel true gender language text s =
    match submit_job E gender text (core s) with
    | (Returned (job_id, status_url), w1) =>
        let j := py_str job_id in
        match poll_for_completion E fuel j (py_str status_url) language
                (Z.of_nat (String.length text)) w1 with
        | (Returned _, w2) =>
            match download_result E j w2 with
            | (Returned path, w3) =>
                match open_rb E path w3 with
                | (Returned _, w4) =>
                    match close E w4 with
                    | (Returned _, w5) =>
                        (Returned tt, shown (page_offering j path) w5 s)
                    | (o, w5) => stopped o (page_offering j path) w5 s
                    end
                | (o, w4) => stopped o (page_listening j path) w4 s
                end
            | (o, w3) => stopped o (page_downloading j) w3 s
            end
        | (o, w2) => stopped o (page_submitted j) w2 s
        end
    | (o, w1) => stopped o page_submitting w1 s
    end.
Proof.
  intros Hne. unfold form_handler. rewrite Hne. destruct s as [w0 pg].
  cbv beta iota zeta delta
    [try_except_Exception pbind spinner show lift pfinally stopped shown
     page_offering page_listening page_downloading page_submitted
     page_submitting core page fst snd].
  destruct (submit_job E gender text w0) as [[[job_id status_url]|e|] w1];
    cbv beta iota zeta delta [core page fst snd];
    cbn [app]; rewrite <- ?app_assoc; cbn [app]; try reflexivity.
  destruct (poll_for_completion E fuel (py_str job_id) (py_str status_url)
              language (Z.of_nat (String.length text)) w1) as [[[]|e|] w2];
    cbv beta iota zeta delta [core page fst snd];
    cbn [app]; rewrite <- ?app_assoc; cbn [app]; try reflexivity.
  destruct (download_result E (py_str job_id) w2) as [[path|e|] w3];
    cbv beta iota zeta delta [core page fst snd];
    cbn [app]; rewrite <- ?app_assoc; cbn [app]; try reflexivity.
  destruct (open_rb E path w3) as [[[]|e|] w4];
    cbv beta iota zeta delta [core page fst snd];
    cbn [app]; rewrite <- ?app_assoc; cbn [app]; try reflexivity.
  destruct (close E w4) as [[[]|e|] w5];
    cbv beta iota zeta delta [core page fst snd];
    cbn [app]; rewrite <- ?app_assoc; cbn [app]; reflexivity.
Qed.

End Stages.

(** *** What the handler does to the world *)

(** The action is not the streaming GET of a result. *)
Definition not_streaming (a : action) : Prop :=
  forall url, a <> Http (GET url true).

Ltac no_stream := repeat constructor; intros ?; discriminate.

Lemma turn_requests (E : env) (job_id url : string) (i : Z)
    (start_time : float) (w : world) (o : outcome loop_ctl) (w1 : world) :
  turn E job_id url i start_time w (o, w1) ->
  exists t, trace w1 = (trace w ++ t)%list /\
            Forall not_streaming t /\
            (o = Returned Break ->
             exists e, In (Placeholder Success (Job_complete e)) t).
Proof.
  intros H. inversion H; subst.
  - exists []. cbn. rewrite app_nil_r.
    split; [reflexivity|]. split; [constructor | discriminate].
  - exists [Http (GET url false);
            Placeholder Warning (Error_checking e i (elapsed_at E start_time w));
            Sleep i].
    unfold warned, asked. cbn. rewrite <- !app_assoc.
    split; [reflexivity|]. split; [no_stream | discriminate].
  - exists [Http (GET url false);
            Placeholder Success (Job_complete (elapsed_at E start_time w))].
    unfold asked. cbn. rewrite <- !app_assoc.
    split; [reflexivity|]. split; [no_stream|].
    intros _. eexists. right. left. reflexivity.
  - exists [Http (GET url false);
            Placeholder Info (Still_processing (elapsed_at E start_time w) i);
            Sleep i].
    unfold asked. cbn. rewrite <- !app_assoc.
    split; [reflexivity|]. split; [no_stream | discriminate].
  - exists [Http (GET url false)]. unfold asked. cbn.
    split; [reflexivity|]. split; [no_stream | discriminate].
  - exists [Http (GET url false)]. unfold asked. cbn.
    split; [reflexivity|]. split; [no_stream | discriminate].
Qed.

Lemma loop_requests (E : env) (job_id url : string) (i : Z)
    (start_time : float) (fuel : nat) (w : world) :
  exists t,
    trace (snd (poll_loop E fuel job_id url i start_time w)) = (trace w ++ t)%list /\
    Forall not_streaming t /\
    (fst (poll_loop E fuel job_id url i start_time w) = Returned tt ->
     exists e, In (Placeholder Success (Job_complete e)) t).
Proof.
  revert w. induction fuel as [|fuel IH]; intros w.
  - exists []. cbn. rewrite app_nil_r.
    split; [reflexivity|]. split; [constructor | discriminate].
  - rewrite poll_loop_S.
    pose proof (turn_total E job_id url i start_time w) as Hturn.
    destruct (poll_iteration E job_id url i start_time w) as [o w1].
    destruct (turn_requests _ _ _ _ _ _ _ _ Hturn) as (t & Ht & Hn & Hs).
    destruct o as [[]| |]; cbn [fst snd].
    + exists t. split; [exact Ht|]. split; [exact Hn | auto].
    + destruct (IH w1) as (t' & Heq & Hn' & Hs').
      exists (t ++ t')%list. rewrite Heq, Ht, <- app_assoc.
      split; [reflexivity|]. split; [now apply Forall_app|].
      intros Hret. destruct (Hs' Hret) as [e He]. exists e.
      apply in_or_app. now right.
    + exists t. split; [exact Ht|]. split; [exact Hn | discriminate].
    + exists t. split; [exact Ht|]. split; [exact Hn | discriminate].
Qed.

Lemma poll_requests (E : env) (fuel : nat) (job_id status_url language : string)
    (n : Z) (w : world) :
  exists t,
    trace (snd (poll_for_completion E fuel job_id status_url language n w))
    = (trace w ++ t)%list /\
    Forall not_streaming t /\
    (fst (poll_for_completion E fuel job_id status_url language n w) = Returned tt ->
     exists e, In (Placeholder Success (Job_complete e)) t).
Proof.
  unfold poll_for_completion, bind, status_placeholder, time_time.
  match goal with
  | |- context [poll_loop E fuel job_id ?u ?i ?s ?w1] =>
      destruct (loop_requests E job_id u i s fuel w1) as (t & Ht & Hn & Hs)
  end.
  exists (Placeholder Info (Using_interval (dynamic_poll_interval language n)) :: t).
  rewrite Ht. cbn. rewrite <- app_assoc.
  split; [reflexivity|]. split.
  - constructor; [intros u; discriminate | exact Hn].
  - intros Hret. destruct (Hs Hret) as [e He]. exists e. now right.
Qed.

Lemma stopped_core {A} (o : outcome A) (cs : list st_call) (w : world)
    (s : session) :
  core (snd (stopped o cs w s)) = w.
Proof. destruct o; reflexivity. Qed.


Lemma open_rb_trace (E : env) (path : string) (w : world) :
  trace (snd (open_rb E path w)) = trace w.
Proof.
  unfold open_rb, disk_op. destruct (has_nul path); [reflexivity|].
  destruct (disk_fault E (disk_ops w)); [reflexivity|].
  cbn. now destruct (files w !! path).
Qed.

Lemma close_trace (E : env) (w : world) : trace (snd (close E w)) = trace w.
Proof.
  unfold close, disk_op. now destruct (disk_fault E (disk_ops w)).
Qed.

Section Handler.

Variables (E : env) (py_str : pyval -> string).

Lemma form_trace (fuel : nat) (gender language text : string) (s : session) :
  is_empty text = false ->
  exists pt dl,
    trace (core (snd (form_handler E py_str fuel true gender language text s)))
    = (trace (core s) ++ Http (submit_request gender text) :: pt ++ dl)%list /\
    Forall not_streaming pt /\
    (dl = [] \/
     exists j e, dl = [Http (GET (result_url j) true)] /\
                 In (Placeholder Success (Job_complete e)) pt).
Proof.
  intros Hne. rewrite (form_handler_stages E py_str fuel _ _ _ s Hne).
  assert (H1 : trace (snd (submit_job E gender text (core s)))
               = (trace (core s) ++ [Http (submit_request gender text)])%list)
    by now rewrite submit_job_cases.
  destruct (submit_job E gender text (core s)) as [o w1]. cbn [snd] in H1.
  assert (Hstop : forall (o' : outcome unit) cs,
            exists pt dl,
              trace (core (snd (stopped o' cs w1 s)))
              = (trace (core s) ++ Http (submit_request gender text) :: pt ++ dl)%list /\
              Forall not_streaming pt /\
              (dl = [] \/
               exists j e, dl = [Http (GET (result_url j) true)] /\
                           In (Placeholder Success (Job_complete e)) pt)).
  { intros o' cs. exists [], []. rewrite stopped_core, H1.
    split; [reflexivity|]. split; [constructor | now left]. }
  destruct o as [[job_id status_url]|e|];
    [|exact (Hstop (Raised e) _) | exact (Hstop Fuel_exhausted _)].
  cbv zeta.
  destruct (poll_requests E fuel (py_str job_id) (py_str status_url) language
              (Z.of_nat (String.length text)) w1) as (pt & Hpt & Hns & Hsucc).
  destruct (poll_for_completion E fuel (py_str job_id) (py_str status_url)
              language (Z.of_nat (String.length text)) w1) as [o2 w2].
  cbn [fst snd] in *.
  assert (Hstop2 : forall (o' : outcome unit) cs,
            exists pt dl,
              trace (core (snd (stopped o' cs w2 s)))
              = (trace (core s) ++ Http (submit_request gender text) :: pt ++ dl)%list /\
              Forall not_streaming pt /\
              (dl = [] \/
               exists j e, dl = [Http (GET (result_url j) true)] /\
                           In (Placeholder Success (Job_complete e)) pt)).
  { intros o' cs. exists pt, []. rewrite stopped_core, Hpt, H1, <- app_assoc.
    rewrite app_nil_r. split; [reflexivity|]. split; [exact Hns | now left]. }
  destruct o2 as [[]|e|];
    [|exact (Hstop2 (Raised e) _) | exact (Hstop2 Fuel_exhausted _)].
  destruct (Hsucc eq_refl) as [e0 He0].
  destruct (download_result_confined E (py_str job_id) w2) as (Htr & _).
  destruct (download_result E (py_str job_id) w2) as [o3 w3].
  cbn [snd] in Htr.
  assert (H3 : trace w3 =
            (trace (core s) ++ Http (submit_request gender text) :: pt ++
             [Http (GET (result_url (py_str job_id)) true)])%list).
  { rewrite Htr. cbn. rewrite Hpt, H1, <- !app_assoc. reflexivity. }
  assert (Hend : forall w', trace w' = trace w3 ->
            exists pt dl,
              trace w'
              = (trace (core s) ++ Http (submit_request gender text) :: pt ++ dl)%list /\
              Forall not_streaming pt /\
              (dl = [] \/
               exists j e, dl = [Http (GET (result_url j) true)] /\
                           In (Placeholder Success (Job_complete e)) pt)).
  { intros w' Hw'. exists pt, [Http (GET (result_url (py_str job_id)) true)].
    rewrite Hw', H3. split; [reflexivity|]. split; [exact Hns|].
    right. eauto. }
  destruct o3 as [path|e|];
    [|rewrite stopped_core; now apply Hend
     |rewrite stopped_core; now apply Hend].
  pose proof (open_rb_trace E path w3) as H4.
  destruct (open_rb E path w3) as [o4 w4]. cbn [snd] in H4.
  destruct o4 as [[]|e|];
    [|rewrite stopped_core; now apply Hend
     |rewrite stopped_core; now apply Hend].
  pose proof (close_trace E w4) as H5.
  destruct (close E w4) as [o5 w5]. cbn [snd] in H5.
  destruct o5 as [[]|e|]; [cbn [snd core shown] | rewrite stopped_core ..];
    apply Hend; congruence.
Qed.

End Handler.

Lemma is_empty_false (text : string) :
  text <> EmptyString -> is_empty text = false.
Proof. destruct text; [congruence | reflexivity]. Qed.

Section HandlerProperties.

Variables (E : env) (py_str : pyval -> string).

(** X21: nothing is sent unless the form was submitted with a text: a
    form that was not submitted changes nothing, an empty text only
    shows the error that asks for a text, and any other text makes the
    submission request the first action. *)
Theorem request_needs_text (fuel : nat) (submitted : bool)
    (gender language text : string) (s : session) :
  let res := form_handler E py_str fuel submitted gender language text s in
  (submitted = false -> res = (Returned tt, s)) /\
  (submitted = true -> text = EmptyString ->
     res = (Returned tt,
            shown [St_error "Please enter some text to synthesize."] (core s) s)) /\
  (submitted = true -> text <> EmptyString ->
     exists t, trace (core (snd res))
               = (trace (core s) ++ Http (submit_request gender text) :: t)%list).
Proof.
  cbv zeta. split; [|split].
  - now intros ->.
  - now intros -> ->.
  - intros -> Hne.
    assert (Hemp : is_empty text = false) by now apply is_empty_false.
    destruct (form_trace E py_str fuel gender language text s Hemp)
      as (pt & dl & Htr & _).
    exists (pt ++ dl)%list. exact Htr.
Qed.


(** X23: an exception of the submission, of the polling or of the
    download ends the handler there: it is shown with
    [status_placeholder.error], the handler returns, and the world is the
    one that stage left, so the later stages did not run. *)
Theorem stage_failure_is_shown (fuel : nat) (gender language text : string)
    (s : session) :
  text <> EmptyString ->
  let res := form_handler E py_str fuel true gender language text s in
  let n := Z.of_nat (String.length text) in
  (forall e w1,
     submit_job E gender text (core s) = (Raised e, w1) ->
     res = (Returned tt, shown (page_submitting ++ [St_placeholder_error e]) w1 s)) /\
  (forall job_id status_url w1 e w2,
     submit_job E gender text (core s) = (Returned (job_id, status_url), w1) ->
     poll_for_completion E fuel (py_str job_id) (py_str status_url) language n w1
     = (Raised e, w2) ->
     res = (Returned tt,
            shown (page_submitted (py_str job_id) ++ [St_placeholder_error e])
              w2 s)) /\
  (forall job_id status_url w1 w2 e w3,
     submit_job E gender text (core s) = (Returned (job_id, status_url), w1) ->
     poll_for_completion E fuel (py_str job_id) (py_str status_url) language n w1
     = (Returned tt, w2) ->
     download_result E (py_str job_id) w2 = (Raised e, w3) ->
     res = (Returned tt,
            shown (page_downloading (py_str job_id) ++ [St_placeholder_error e])
              w3 s)).
Proof.
  intros Hne. cbv zeta.
  assert (Hemp : is_empty text = false) by now apply is_empty_false.
  rewrite (form_handler_stages E py_str fuel _ _ _ s Hemp).
  split; [|split].
  - intros e w1 ->. reflexivity.
  - intros job_id status_url w1 e w2 -> Hp. cbv zeta. now rewrite Hp.
  - intros job_id status_url w1 w2 e w3 -> Hp Hd. cbv zeta. now rewrite Hp, Hd.
Qed.

(** X24: the result is requested only after the poller showed the
    success: a streaming GET in the trace of the handler is its last
    action, and the success message comes before it. *)
Theorem result_requested_after_success (fuel : nat) (submitted : bool)
    (gender language text : string) (s : session) :
  exists t,
    trace (core (snd (form_handler E py_str fuel submitted gender language text s)))
    = (trace (core s) ++ t)%list /\
    forall url,
      In (Http (GET url true)) t ->
      exists before e,
        t = (before ++ [Http (GET url true)])%list /\
        In (Placeholder Success (Job_complete e)) before.
Proof.
  destruct submitted;
    [|exists []; cbn; rewrite app_nil_r; split; [reflexivity | intros url []]].
  destruct (is_empty text) eqn:Hemp.
  { exists []. unfold form_handler. rewrite Hemp. cbn. rewrite app_nil_r.
    split; [reflexivity | intros url []]. }
  destruct (form_trace E py_str fuel gender language text s Hemp)
    as (pt & dl & Htr & Hns & Hdl).
  exists (Http (submit_request gender text) :: pt ++ dl)%list.
  split; [exact Htr|].
  intros url [Hin | Hin]; [discriminate|].
  apply in_app_or in Hin as [Hin | Hin].
  { now destruct (proj1 (List.Forall_forall _ _) Hns _ Hin url). }
  destruct Hdl as [-> | (j & e & -> & Hsucc)]; [destruct Hin|].
  destruct Hin as [Heq | []]. injection Heq as <-.
  exists (Http (submit_request gender text) :: pt), e.
  split; [now rewrite <- app_comm_cons | now right].
Qed.


End HandlerProperties.


Lemma request_needs_text_witness :
  exists t,
    trace (core (snd (form_handler obliging str_of 3 true "female"
                        "English (en)" "Hello" blank)))
    = Http (submit_request "female" "Hello") :: t.
Proof.
  refine (proj2 (proj2 (request_needs_text obliging str_of 3 true "female"
                          "English (en)" "Hello" blank)) eq_refl _).
  discriminate.
Defined.

Lemma stage_failure_is_shown_witness :
  fst (form_handler (late 0) str_of 3 true "female" "Other" "Hello" blank)
  = Returned tt.
Proof.
  refine (f_equal fst
            (proj1 (stage_failure_is_shown (late 0) str_of 3 "female" "Other"
                      "Hello" blank _)
               (Exception (Error_submitting (ConnectionError "unreachable")))
               (sent (submit_request "female" "Hello") idle) _)).
  - discriminate.
  - vm_compute. reflexivity.
Defined.

